(** * The memory management unit of gomeboycolor ([src/src/mmu/mmu.go])

    A shallow embedding of [GbcMMU], the router between the 16-bit address
    space of the console and its backing stores, and the properties of it
    that the specification states.

    The Go code mutates one [GbcMMU] through a pointer, calls into two kinds
    of collaborators it does not own (peripherals, and the cartridge's bank
    controller), writes to the process log, and can stop with a run-time
    panic (nil pointer, index out of range).  The embedding threads a
    [World] (the router, the collaborators' store, the log) through a small
    state-and-panic monad.  [RequestInterrupt] and [PrintPeripheralMap]
    write lines of their own; they run on a [Machine], a world with those
    two output streams. *)

From Stdlib Require Import ZArith Lia.
From stdpp Require Import base gmap list strings.
From stdpp Require Import sorting.

Local Open Scope Z_scope.

(** ** Machine integers *)

(** Modelled from the spec: [types.Word] is not among the sources; the data
    model gives an address as an unsigned 16-bit value in [0, 65535], so
    arithmetic on it wraps modulo 2^16.  A Go [byte] is an unsigned 8-bit
    value. *)
Abbreviation Word := Z (only parsing).
Abbreviation byte := Z (only parsing).

Definition wrap16 (z : Z) : Word := z mod 65536.

Definition is_Word (a : Z) : Prop := 0 <= a < 65536.
Definition is_byte (b : Z) : Prop := 0 <= b < 256.

(** Go's [len], as an integer. *)
Definition len {A : Type} (l : list A) : Z := Z.of_nat (length l).

(** ** [utils] *)

(** Modelled from the spec: [utils.JoinBytes] is not among the sources.
    [ReadWord] hands it the byte read at [addr] first and the byte read at
    [addr+1] second, and the spec calls the result their little-endian
    join: the first is the low-order byte. *)
Definition JoinBytes (b1 b2 : byte) : Z :=
  Z.lor (Z.shiftl b2 8) b1.

(** Modelled from the spec: [utils.SplitIntoBytes] is not among the sources.
    [WriteWord] writes its first result at [addr] and its second at
    [addr+1]; little-endian order makes them the low and the high byte. *)
Definition SplitIntoBytes (value : Z) : byte * byte :=
  (Z.land value 0xFF, Z.land (Z.shiftr value 8) 0xFF).

(** ** Collaborators *)

(** [components.Peripheral] and the cartridge's [MBC] are interfaces whose
    implementations live outside this package.  [P] and [C] are references
    to a peripheral and to a cartridge, [E] is the store those references
    point into; a call may read and change that store. *)
Class Collaborators (P C E : Type) := {
  Peripheral_Name : P -> E -> string;
  Peripheral_Read : P -> Word -> E -> byte * E;
  Peripheral_Write : P -> Word -> byte -> E -> E;
  MBC_Read : C -> Word -> E -> byte * E;
  MBC_Write : C -> Word -> byte -> E -> E;
  Cartridge_String : C -> E -> string
}.

(** ** Panics, errors and the log *)

Inductive RuntimeError : Type :=
| NilPointerDereference
| IndexOutOfRange (index : Z) (length : Z).

(** [var ROMIsBiggerThanRegion error] *)
Inductive error : Type :=
| ROMIsBiggerThanRegion.

(** One constructor per [log.Println]/[log.Printf] call of the package. *)
Inductive LogLine : Type :=
| LogResetting
| LogConnectAddress (name : string) (addr : Word)
| LogConnectRange (name : string) (startAddr endAddr : Word)
| LogLoadingBIOS (length : Z)
| LogLoadedCartridge (descr : string)
| LogReadUnmapped (addr : Word).

(** ** The router's state *)

Record GbcMMU (P C : Type) : Type := mkGbcMMU {
  bios : list byte;               (* [256]byte,  0x0000 -> 0x00FF *)
  cartridge : option C;           (* *cartridge.Cartridge, [None] is nil *)
  internalRAM : list byte;        (* [8192]byte, 0xC000 -> 0xDFFF *)
  internalRAMShadow : list byte;  (* [7680]byte, 0xE000 -> 0xFDFF *)
  emptySpace : list byte;         (* [52]byte,   0xFF4C -> 0xFF7F *)
  zeroPageRAM : list byte;        (* [128]byte,  0xFF80 -  0xFFFE *)
  inBootMode : bool;
  dmgStatusRegister : byte;
  interruptsEnabled : byte;
  interruptsFlag : byte;
  peripheralIOMap : gmap Z P
}.

Arguments mkGbcMMU {P C}.
Arguments bios {P C}.
Arguments cartridge {P C}.
Arguments internalRAM {P C}.
Arguments internalRAMShadow {P C}.
Arguments emptySpace {P C}.
Arguments zeroPageRAM {P C}.
Arguments inBootMode {P C}.
Arguments dmgStatusRegister {P C}.
Arguments interruptsEnabled {P C}.
Arguments interruptsFlag {P C}.
Arguments peripheralIOMap {P C}.

(** The array types fix the lengths; a list does not, so they are an
    invariant of the state. *)
Record array_lengths {P C : Type} (m : GbcMMU P C) : Prop := {
  len_bios : len (bios m) = 256;
  len_internalRAM : len (internalRAM m) = 8192;
  len_internalRAMShadow : len (internalRAMShadow m) = 7680;
  len_emptySpace : len (emptySpace m) = 52;
  len_zeroPageRAM : len (zeroPageRAM m) = 128
}.

Section Setters.
Context {P C : Type}.
Implicit Type m : GbcMMU P C.

Definition set_bios (v : list byte) m : GbcMMU P C :=
  mkGbcMMU v (cartridge m) (internalRAM m) (internalRAMShadow m)
    (emptySpace m) (zeroPageRAM m) (inBootMode m) (dmgStatusRegister m)
    (interruptsEnabled m) (interruptsFlag m) (peripheralIOMap m).

Definition set_cartridge (v : option C) m : GbcMMU P C :=
  mkGbcMMU (bios m) v (internalRAM m) (internalRAMShadow m)
    (emptySpace m) (zeroPageRAM m) (inBootMode m) (dmgStatusRegister m)
    (interruptsEnabled m) (interruptsFlag m) (peripheralIOMap m).

Definition set_internalRAM (v : list byte) m : GbcMMU P C :=
  mkGbcMMU (bios m) (cartridge m) v (internalRAMShadow m)
    (emptySpace m) (zeroPageRAM m) (inBootMode m) (dmgStatusRegister m)
    (interruptsEnabled m) (interruptsFlag m) (peripheralIOMap m).

Definition set_internalRAMShadow (v : list byte) m : GbcMMU P C :=
  mkGbcMMU (bios m) (cartridge m) (internalRAM m) v
    (emptySpace m) (zeroPageRAM m) (inBootMode m) (dmgStatusRegister m)
    (interruptsEnabled m) (interruptsFlag m) (peripheralIOMap m).

Definition set_emptySpace (v : list byte) m : GbcMMU P C :=
  mkGbcMMU (bios m) (cartridge m) (internalRAM m) (internalRAMShadow m)
    v (zeroPageRAM m) (inBootMode m) (dmgStatusRegister m)
    (interruptsEnabled m) (interruptsFlag m) (peripheralIOMap m).

Definition set_zeroPageRAM (v : list byte) m : GbcMMU P C :=
  mkGbcMMU (bios m) (cartridge m) (internalRAM m) (internalRAMShadow m)
    (emptySpace m) v (inBootMode m) (dmgStatusRegister m)
    (interruptsEnabled m) (interruptsFlag m) (peripheralIOMap m).

Definition set_inBootMode (v : bool) m : GbcMMU P C :=
  mkGbcMMU (bios m) (cartridge m) (internalRAM m) (internalRAMShadow m)
    (emptySpace m) (zeroPageRAM m) v (dmgStatusRegister m)
    (interruptsEnabled m) (interruptsFlag m) (peripheralIOMap m).

Definition set_dmgStatusRegister (v : byte) m : GbcMMU P C :=
  mkGbcMMU (bios m) (cartridge m) (internalRAM m) (internalRAMShadow m)
    (emptySpace m) (zeroPageRAM m) (inBootMode m) v
    (interruptsEnabled m) (interruptsFlag m) (peripheralIOMap m).

Definition set_interruptsEnabled (v : byte) m : GbcMMU P C :=
  mkGbcMMU (bios m) (cartridge m) (internalRAM m) (internalRAMShadow m)
    (emptySpace m) (zeroPageRAM m) (inBootMode m) (dmgStatusRegister m)
    v (interruptsFlag m) (peripheralIOMap m).

Definition set_interruptsFlag (v : byte) m : GbcMMU P C :=
  mkGbcMMU (bios m) (cartridge m) (internalRAM m) (internalRAMShadow m)
    (emptySpace m) (zeroPageRAM m) (inBootMode m) (dmgStatusRegister m)
    (interruptsEnabled m) v (peripheralIOMap m).

Definition set_peripheralIOMap (v : gmap Z P) m : GbcMMU P C :=
  mkGbcMMU (bios m) (cartridge m) (internalRAM m) (internalRAMShadow m)
    (emptySpace m) (zeroPageRAM m) (inBootMode m) (dmgStatusRegister m)
    (interruptsEnabled m) (interruptsFlag m) v.

End Setters.

(** ** The world and the monad *)

Record World (P C E : Type) : Type := mkWorld {
  mmu : GbcMMU P C;        (* what the receiver [mmu *GbcMMU] points to *)
  env : E;                 (* the collaborators' store *)
  console : list LogLine   (* what [log] has printed, oldest first *)
}.

Arguments mkWorld {P C E}.
Arguments mmu {P C E}.
Arguments env {P C E}.
Arguments console {P C E}.

(** A call returns a value and a new world, or panics. *)
Inductive outcome (W A : Type) : Type :=
| Returns (a : A) (w : W)
| Panics (e : RuntimeError).

Arguments Returns {W A}.
Arguments Panics {W A}.

Definition M (W A : Type) : Type := W -> outcome W A.

Definition ret {W A : Type} (a : A) : M W A := fun w => Returns a w.

Definition bind {W A B : Type} (c : M W A) (k : A -> M W B) : M W B :=
  fun w => match c w with
           | Returns a w' => k a w'
           | Panics e => Panics e
           end.

Definition panic {W A : Type} (e : RuntimeError) : M W A := fun _ => Panics e.

Notation "x <- c ;; k" := (bind c (fun x => k))
  (at level 100, c at next level, right associativity).
Notation "c ;;; k" := (bind c (fun _ => k))
  (at level 100, right associativity).

(** ** The router's operations *)

Section Router.
Context {P C E : Type} `{!Collaborators P C E}.

Abbreviation Op := (M (World P C E)).

(** Reading and replacing what the receiver points to. *)
Definition this : Op (GbcMMU P C) := fun w => Returns (mmu w) w.

Definition update (f : GbcMMU P C -> GbcMMU P C) : Op unit :=
  fun w => Returns tt (mkWorld (f (mmu w)) (env w) (console w)).

(** A call into a collaborator. *)
Definition call {A : Type} (f : E -> A * E) : Op A :=
  fun w => let (a, e) := f (env w) in Returns a (mkWorld (mmu w) e (console w)).

Definition call_ (f : E -> E) : Op unit :=
  fun w => Returns tt (mkWorld (mmu w) (f (env w)) (console w)).

Definition ask {A : Type} (f : E -> A) : Op A :=
  fun w => Returns (f (env w)) w.

Definition log (l : LogLine) : Op unit :=
  fun w => Returns tt (mkWorld (mmu w) (env w) (console w ++ [l])).

(** [mmu.cartridge.MBC]: following a nil pointer panics. *)
Definition deref (c : option C) : Op C :=
  match c with
  | Some c => ret c
  | None => panic NilPointerDereference
  end.

(** [arr[i]] and [arr[i] = v] on a Go array: an index outside the array
    panics. *)
Definition index (arr : list byte) (i : Z) : Op byte :=
  if (0 <=? i) && (i <? len arr)
  then match arr !! Z.to_nat i with
       | Some b => ret b
       | None => panic (IndexOutOfRange i (len arr))
       end
  else panic (IndexOutOfRange i (len arr)).

Definition assign (arr : list byte) (i : Z) (v : byte) : Op (list byte) :=
  if (0 <=? i) && (i <? len arr)
  then ret (<[Z.to_nat i := v]> arr)
  else panic (IndexOutOfRange i (len arr)).

(** [func (mmu *GbcMMU) Reset()] *)
Definition Reset : Op unit :=
  log LogResetting ;;;
  update (set_inBootMode true) ;;;
  update (set_interruptsFlag 0x00).

(** [new(GbcMMU)]: every field at its zero value. *)
Definition zero_GbcMMU : GbcMMU P C :=
  mkGbcMMU (replicate (Z.to_nat 256) 0) None (replicate (Z.to_nat 8192) 0)
    (replicate (Z.to_nat 7680) 0) (replicate (Z.to_nat 52) 0)
    (replicate (Z.to_nat 128) 0) false 0 0 0 ∅.

(** [func NewGbcMMU() *GbcMMU]; the world's router becomes the new one. *)
Definition NewGbcMMU : Op unit :=
  update (fun _ => zero_GbcMMU) ;;;
  update (set_peripheralIOMap ∅) ;;;
  Reset.

(** [func (mmu *GbcMMU) WriteByte(addr types.Word, value byte)] *)
Definition WriteByte (addr : Word) (value : byte) : Op unit :=
  m <- this ;;
  match peripheralIOMap m !! addr with
  | Some p => call_ (Peripheral_Write p addr value)
  | None =>
    if (0x0000 <=? addr) && (addr <=? 0x9FFF) then
      c <- deref (cartridge m) ;;
      call_ (MBC_Write c addr value)
    else if (0xA000 <=? addr) && (addr <=? 0xBFFF) then
      c <- deref (cartridge m) ;;
      call_ (MBC_Write c addr value)
    else if (0xC000 <=? addr) && (addr <=? 0xDFFF) then
      ram <- assign (internalRAM m) (Z.land addr (0xDFFF - 0xC000)) value ;;
      update (set_internalRAM ram) ;;;
      if (0xC000 <=? addr) && (addr <=? 0xDDFF) then
        shadow <- assign (internalRAMShadow m)
                         (Z.land addr (0xDDFF - 0xC000)) value ;;
        update (set_internalRAMShadow shadow)
      else ret tt
    else if addr =? 0xFF0F then
      update (set_interruptsFlag value)
    else if (0xFF4C <=? addr) && (addr <=? 0xFF7F) then
      if addr =? 0xFF50 then
        update (set_dmgStatusRegister value)
      else
        space <- assign (emptySpace m) (wrap16 (addr - 0xFF4D)) value ;;
        update (set_emptySpace space)
    else if (0xFF80 <=? addr) && (addr <=? 0xFFFF) then
      if addr =? 0xFFFF then
        update (set_interruptsEnabled value)
      else
        zp <- assign (zeroPageRAM m) (Z.land addr (0xFFFF - 0xFF80)) value ;;
        update (set_zeroPageRAM zp)
    else ret tt
  end.

(** [func (mmu *GbcMMU) ReadByte(addr types.Word) byte] *)
Definition ReadByte (addr : Word) : Op byte :=
  m <- this ;;
  match peripheralIOMap m !! addr with
  | Some p => call (Peripheral_Read p addr)
  | None =>
    if (0x0000 <=? addr) && (addr <=? 0x3FFF) then
      if inBootMode m && (addr <? 0x0100) then
        index (bios m) addr
      else
        c <- deref (cartridge m) ;;
        call (MBC_Read c addr)
    else if (0x4000 <=? addr) && (addr <=? 0x7FFF) then
      c <- deref (cartridge m) ;;
      call (MBC_Read c addr)
    else if (0xA000 <=? addr) && (addr <=? 0xBFFF) then
      c <- deref (cartridge m) ;;
      call (MBC_Read c addr)
    else if (0xC000 <=? addr) && (addr <=? 0xDFFF) then
      index (internalRAM m) (Z.land addr (0xDFFF - 0xC000))
    else if (0xE000 <=? addr) && (addr <=? 0xFDFF) then
      index (internalRAMShadow m) (Z.land addr (0xFDFF - 0xE000))
    else if addr =? 0xFF0F then
      ret (interruptsFlag m)
    else if (0xFF4C <=? addr) && (addr <=? 0xFF7F) then
      if addr =? 0xFF50 then
        ret (dmgStatusRegister m)
      else
        index (emptySpace m) (wrap16 (addr - 0xFF4C))
    else if (0xFF80 <=? addr) && (addr <=? 0xFFFF) then
      if addr =? 0xFFFF then
        ret (interruptsEnabled m)
      else
        index (zeroPageRAM m) (Z.land addr (0xFFFF - 0xFF80))
    else
      log (LogReadUnmapped addr) ;;;
      ret 0x00
  end.

(** [func (mmu *GbcMMU) ReadWord(addr types.Word) types.Word] *)
Definition ReadWord (addr : Word) : Op Word :=
  b1 <- ReadByte addr ;;
  b2 <- ReadByte (wrap16 (addr + 1)) ;;
  ret (wrap16 (JoinBytes b1 b2)).

(** [func (mmu *GbcMMU) WriteWord(addr types.Word, value types.Word)] *)
Definition WriteWord (addr : Word) (value : Word) : Op unit :=
  let '(b1, b2) := SplitIntoBytes (wrap16 value) in
  WriteByte addr b1 ;;;
  WriteByte (wrap16 (addr + 1)) b2.

(** [func (mmu *GbcMMU) SetInBootMode(mode bool)] *)
Definition SetInBootMode (mode : bool) : Op unit :=
  update (set_inBootMode mode).

(** [mmu.peripheralIOMap[addr] = p] *)
Definition bind_address (addr : Word) (p : P) : Op unit :=
  m <- this ;;
  update (set_peripheralIOMap (<[addr := p]> (peripheralIOMap m))).

(** The [for addr := startAddr; addr <= endAddr; addr++] loop of
    [ConnectPeripheral]; [addr++] wraps as a [types.Word] does.  [None]
    when [fuel] iterations did not reach the loop's exit. *)
Fixpoint ConnectPeripheral_loop (fuel : nat) (p : P) (addr endAddr : Word)
    (w : World P C E) : option (outcome (World P C E) unit) :=
  match fuel with
  | O => None
  | S fuel' =>
    if addr <=? endAddr then
      match bind_address addr p w with
      | Returns _ w' => ConnectPeripheral_loop fuel' p (wrap16 (addr + 1)) endAddr w'
      | Panics e => Some (Panics e)
      end
    else Some (Returns tt w)
  end.

(** [func (mmu *GbcMMU) ConnectPeripheral(p components.Peripheral,
    startAddr, endAddr types.Word)]; [None] when the loop did not end within
    [fuel] iterations. *)
Definition ConnectPeripheral (fuel : nat) (p : P) (startAddr endAddr : Word)
    (w : World P C E) : option (outcome (World P C E) unit) :=
  if startAddr =? endAddr then
    Some ((name <- ask (Peripheral_Name p) ;;
           log (LogConnectAddress name startAddr) ;;;
           bind_address startAddr p) w)
  else
    match (name <- ask (Peripheral_Name p) ;;
           log (LogConnectRange name startAddr endAddr)) w with
    | Returns _ w' => ConnectPeripheral_loop fuel p startAddr endAddr w'
    | Panics e => Some (Panics e)
    end.

(** The [for i, b := range data] loop of [LoadBIOS], from index [i] on. *)
Fixpoint LoadBIOS_loop (i : Z) (data : list byte) : Op unit :=
  match data with
  | [] => ret tt
  | b :: rest =>
    m <- this ;;
    rom <- assign (bios m) i b ;;
    update (set_bios rom) ;;;
    LoadBIOS_loop (i + 1) rest
  end.

(** [func (mmu *GbcMMU) LoadBIOS(data []byte) (bool, error)] *)
Definition LoadBIOS (data : list byte) : Op (bool * option error) :=
  log (LogLoadingBIOS (len data)) ;;;
  m <- this ;;
  if len (bios m) <? len data then
    ret (false, Some ROMIsBiggerThanRegion)
  else
    LoadBIOS_loop 0 data ;;;
    ret (true, None).

(** [func (mmu *GbcMMU) LoadCartridge(cart *cartridge.Cartridge)], for a
    [cart] that is not nil. *)
Definition LoadCartridge (cart : C) : Op unit :=
  update (set_cartridge (Some cart)) ;;;
  descr <- ask (Cartridge_String cart) ;;
  log (LogLoadedCartridge descr).

End Router.

(** ** Diagnostics

    [RequestInterrupt] logs a line that [LogLine] has no constructor for
    and [PrintPeripheralMap] prints to standard output; a [Machine] is a
    world together with those two streams, oldest output first. *)

Inductive Warning : Type :=
| WarnInterruptUnimplemented (interrupt : byte).

Inductive Printed : Type :=
| PrintEntry (addr : Word) (name : string)  (* fmt.Printf("[%s] -> %s   ", ...) *)
| PrintNewline.                             (* fmt.Println() *)

Record Machine (P C E : Type) : Type := mkMachine {
  world : World P C E;
  warnings : list Warning;
  stdout : list Printed
}.

Arguments mkMachine {P C E}.
Arguments world {P C E}.
Arguments warnings {P C E}.
Arguments stdout {P C E}.

(** Modelled from the spec: [types.Words] and its [sort.Interface] methods
    are not among the sources; the spec has the dump in ascending address
    order, so [sort.Sort(addrs)] sorts by [<=]. *)
Definition sort_Words (addrs : list Word) : list Word :=
  merge_sort Z.le addrs.

Section Diagnostics.
Context {P C E : Type} `{!Collaborators P C E}.

(** [constants.V_BLANK_IRQ] and [constants.INTERRUPT_FLAG_ADDR]: the
    [constants] package is not among the sources, its two constants are
    arguments. *)
Variable V_BLANK_IRQ : byte.
Variable INTERRUPT_FLAG_ADDR : Word.

(** An operation of the router, run on a machine. *)
Definition lift {A : Type} (c : M (World P C E) A) : M (Machine P C E) A :=
  fun mc =>
    match c (world mc) with
    | Returns a w => Returns a (mkMachine w (warnings mc) (stdout mc))
    | Panics e => Panics e
    end.

Definition warn (l : Warning) : M (Machine P C E) unit :=
  fun mc => Returns tt (mkMachine (world mc) (warnings mc ++ [l]) (stdout mc)).

Definition print (o : Printed) : M (Machine P C E) unit :=
  fun mc => Returns tt (mkMachine (world mc) (warnings mc) (stdout mc ++ [o])).

(** [func (mmu *GbcMMU) RequestInterrupt(interrupt byte)] *)
Definition RequestInterrupt (interrupt : byte) : M (Machine P C E) unit :=
  if interrupt =? V_BLANK_IRQ then
    lift (WriteByte INTERRUPT_FLAG_ADDR 0x01)
  else
    warn (WarnInterruptUnimplemented interrupt).

(** [peripheral := mmu.peripheralIOMap[addr]] followed by
    [peripheral.Name()]: a missing key gives a nil interface, and the call
    on it panics. *)
Definition name_at (addr : Word) : M (Machine P C E) string :=
  m <- lift this ;;
  match peripheralIOMap m !! addr with
  | Some peripheral => lift (ask (Peripheral_Name peripheral))
  | None => panic NilPointerDereference
  end.

(** The [for i, addr := range addrs] loop of [PrintPeripheralMap], from
    index [i] on. *)
Fixpoint PrintPeripheralMap_loop (i : Z) (addrs : list Word)
    : M (Machine P C E) unit :=
  match addrs with
  | [] => ret tt
  | addr :: rest =>
    name <- name_at addr ;;
    print (PrintEntry addr name) ;;;
    (if i mod 8 =? 0 then print PrintNewline else ret tt) ;;;
    PrintPeripheralMap_loop (i + 1) rest
  end.

(** [func (mmu *GbcMMU) PrintPeripheralMap()].  Go ranges over a map in an
    order of its choosing; [map_to_list] is one such order, and the sort
    that follows makes the choice immaterial. *)
Definition PrintPeripheralMap : M (Machine P C E) unit :=
  m <- lift this ;;
  let addrs := sort_Words (map_to_list (peripheralIOMap m)).*1 in
  PrintPeripheralMap_loop 0 addrs ;;;
  print PrintNewline.

End Diagnostics.

(** The entries among what was printed, in order. *)
Definition entries (out : list Printed) : list (Word * string) :=
  omap (fun o => match o with
                 | PrintEntry addr name => Some (addr, name)
                 | PrintNewline => None
                 end) out.

(** ** A recording stand-in for the collaborators

    Peripherals and cartridges are numbered; the store is the list of the
    calls made so far, oldest first.  Every read answers [0x00]. *)

Inductive Call : Type :=
| CallPeripheralRead (p : nat) (addr : Word)
| CallPeripheralWrite (p : nat) (addr : Word) (value : byte)
| CallMBCRead (c : nat) (addr : Word)
| CallMBCWrite (c : nat) (addr : Word) (value : byte).

#[global] Instance Recorder : Collaborators nat nat (list Call) := {|
  Peripheral_Name := fun _ _ => "recorder"%string;
  Peripheral_Read := fun p addr e => (0x00, e ++ [CallPeripheralRead p addr]);
  Peripheral_Write := fun p addr value e => e ++ [CallPeripheralWrite p addr value];
  MBC_Read := fun c addr e => (0x00, e ++ [CallMBCRead c addr]);
  MBC_Write := fun c addr value e => e ++ [CallMBCWrite c addr value];
  Cartridge_String := fun _ _ => "cartridge"%string
|}.

(** The world an operation leaves behind ([w] itself after a panic). *)
Definition after {W A : Type} (c : M W A) (w : W) : W :=
  match c w with
  | Returns _ w' => w'
  | Panics _ => w
  end.

(** A machine right after [NewGbcMMU()] and [LoadCartridge] of cartridge 0,
    nothing wired, no call made yet. *)
Definition power_on : World nat nat (list Call) :=
  after (NewGbcMMU ;;; LoadCartridge 0%nat) (mkWorld zero_GbcMMU [] []).

(** The same machine after [ConnectPeripheral(p, 0xFF40, 0xFF45)] for
    peripheral 7. *)
Definition wired : World nat nat (list Call) :=
  match ConnectPeripheral 8 7%nat 0xFF40 0xFF45 power_on with
  | Some (Returns _ w) => w
  | _ => power_on
  end.

(** What a call returned, if it returned. *)
Definition returned {W A : Type} (o : outcome W A) : option A :=
  match o with
  | Returns a _ => Some a
  | Panics _ => None
  end.

(** The calls recorded so far. *)
Definition calls : M (World nat nat (list Call)) (list Call) :=
  ask (fun e => e).

(** A machine right after [NewGbcMMU()]: no cartridge yet. *)
Definition unloaded : World nat nat (list Call) :=
  after NewGbcMMU (mkWorld zero_GbcMMU [] []).

(** The wired machine with nothing warned or printed yet. *)
Definition bench : Machine nat nat (list Call) :=
  mkMachine wired [] [].

(** The machine at power-on with the bytes [0xEF], [0xBE] stored at
    [0xC000], [0xC001]. *)
Definition stamped : World nat nat (list Call) :=
  after (WriteByte 0xC000 0xEF ;;; WriteByte 0xC001 0xBE) power_on.

(** A machine past its boot sequence: a three-byte boot ROM loaded, boot
    mode switched off, interrupt flags pending. *)
Definition running : World nat nat (list Call) :=
  after (LoadBIOS [0x31; 0xFE; 0xFF] ;;;
         SetInBootMode false ;;;
         WriteByte 0xFF0F 0x1F) power_on.

(** Settles the range tests of [WriteByte] and [ReadByte] from the bounds
    in the context. *)
Ltac decode :=
  repeat match goal with
  | |- context [?a <=? ?b] =>
      destruct (Z.leb_spec a b); [try lia | try lia]
  | |- context [?a <? ?b] =>
      destruct (Z.ltb_spec a b); [try lia | try lia]
  | |- context [?a =? ?b] =>
      destruct (Z.eqb_spec a b); [try lia | try lia]
  end;
  cbn [andb negb orb].

(** * Properties *)

(** ** Index arithmetic *)

(** A mask never yields more than itself: the bits of [Z.land a k] are
    among those of [k]. *)
Lemma land_mask_range (a k : Z) :
  0 <= k -> 0 <= Z.land a k <= k.
Proof.
  intros Hk. split.
  - apply Z.land_nonneg. now right.
  - assert (Hsub : Z.ldiff (Z.land a k) k = 0).
    { apply Z.bits_inj'. intros n Hn.
      rewrite Z.ldiff_spec, Z.land_spec, Z.bits_0.
      destruct (Z.testbit a n), (Z.testbit k n); reflexivity. }
    pose proof (Z.sub_nocarry_ldiff _ _ Hsub) as Hdiff.
    assert (0 <= Z.ldiff k (Z.land a k)) by (apply Z.ldiff_nonneg; now left).
    lia.
Qed.

(** Adding [0x2000] to an address does not change what the shadow's mask
    keeps of it: the mask lies below bit 13. *)
Lemma shadow_mask_offset (a : Z) :
  Z.land (a + 0x2000) (0xFDFF - 0xE000) = Z.land a (0xDDFF - 0xC000).
Proof.
  change (0xFDFF - 0xE000) with (Z.land (Z.ones 13) 0x1DFF).
  change (0xDDFF - 0xC000) with (Z.land (Z.ones 13) 0x1DFF).
  rewrite !Z.land_assoc, !Z.land_ones by lia.
  change 0x2000 with (1 * 2 ^ 13).
  now rewrite Z.mod_add by lia.
Qed.

(** The work-RAM mask is [2^13 - 1]: it takes the address modulo 8192. *)
Lemma internalRAM_mask (a : Z) :
  Z.land a (0xDFFF - 0xC000) = a mod 8192.
Proof.
  change (0xDFFF - 0xC000) with (Z.ones 13).
  now rewrite Z.land_ones by lia.
Qed.

(** ** Arrays *)

Section Arrays.
Context {P C E : Type} `{!Collaborators P C E}.
Implicit Type w : World P C E.

Lemma assign_in_range (arr : list Z) (i v : Z) w :
  0 <= i < len arr ->
  assign arr i v w = Returns (<[Z.to_nat i := v]> arr) w.
Proof.
  intros Hi. unfold assign.
  destruct (Z.leb_spec 0 i); [|lia].
  destruct (Z.ltb_spec i (len arr)); [|lia].
  reflexivity.
Qed.

Lemma assign_out_of_range (arr : list Z) (i v : Z) w :
  len arr <= i ->
  assign arr i v w = Panics (IndexOutOfRange i (len arr)).
Proof.
  intros Hi. unfold assign.
  destruct (Z.ltb_spec i (len arr)); [lia|].
  now rewrite andb_false_r.
Qed.

Lemma index_in_range (arr : list Z) (i b : Z) w :
  0 <= i -> arr !! Z.to_nat i = Some b ->
  index arr i w = Returns b w.
Proof.
  intros Hi Hb. unfold index.
  pose proof (lookup_lt_Some _ _ _ Hb) as Hlt.
  destruct (Z.leb_spec 0 i); [|lia].
  destruct (Z.ltb_spec i (len arr)); [|unfold len in *; lia].
  now rewrite Hb.
Qed.

Lemma index_assigned (arr : list Z) (i v : Z) w :
  0 <= i < len arr ->
  index (<[Z.to_nat i := v]> arr) i w = Returns v w.
Proof.
  intros Hi. apply index_in_range; [lia|].
  apply list_lookup_insert_eq. unfold len in Hi. lia.
Qed.

Lemma len_insert (arr : list Z) (i : nat) (v : Z) :
  len (<[i := v]> arr) = len arr.
Proof. unfold len. now rewrite length_insert. Qed.

End Arrays.

(** ** Address decoding *)

Section Router_properties.
Context {P C E : Type} `{!Collaborators P C E}.
Implicit Type w : World P C E.

(** A write into work RAM, for an address nobody claimed. *)
Lemma WriteByte_internalRAM w (addr value : Z) :
  array_lengths (mmu w) ->
  0xC000 <= addr <= 0xDFFF ->
  peripheralIOMap (mmu w) !! addr = None ->
  WriteByte addr value w =
    Returns tt
      (mkWorld
         (let ram := set_internalRAM
                       (<[Z.to_nat (addr mod 8192) := value]> (internalRAM (mmu w)))
                       (mmu w) in
          if addr <=? 0xDDFF
          then set_internalRAMShadow
                 (<[Z.to_nat (Z.land addr (0xDDFF - 0xC000)) := value]>
                    (internalRAMShadow (mmu w))) ram
          else ram)
         (env w) (console w)).
Proof.
  intros [_ Hram Hshadow _ _] Haddr Hfree.
  unfold WriteByte, bind, this. rewrite Hfree.
  decode; rewrite internalRAM_mask;
    (rewrite assign_in_range
      by (rewrite Hram; apply Z.mod_pos_bound; lia)).
  - cbn [update mmu env console]. 
    pose proof (land_mask_range addr (0xDDFF - 0xC000) ltac:(lia)).
    rewrite assign_in_range by (rewrite Hshadow; cbn [mmu internalRAMShadow set_internalRAM]; lia).
    reflexivity.
  - reflexivity.
Qed.

(** C6. For every address in [0xC000, 0xDFFF] that no peripheral claims,
    [WriteByte addr value] returns, and [ReadByte addr] right after it
    returns [value] and leaves the world as the write left it. *)
Theorem WriteByte_ReadByte_internalRAM w (addr value : Z) :
  array_lengths (mmu w) ->
  0xC000 <= addr <= 0xDFFF ->
  peripheralIOMap (mmu w) !! addr = None ->
  exists w',
    WriteByte addr value w = Returns tt w' /\
    ReadByte addr w' = Returns value w'.
Proof.
  intros Hlen Haddr Hfree.
  eexists. split; [now apply WriteByte_internalRAM|].
  destruct Hlen as [_ Hram _ _ _].
  assert (Hi : 0 <= addr mod 8192 < len (internalRAM (mmu w)))
    by (rewrite Hram; apply Z.mod_pos_bound; lia).
  unfold ReadByte, bind, this. cbn [mmu].
  replace (peripheralIOMap _ !! addr) with (@None P)
    by (now destruct (addr <=? 0xDDFF)).
  decode; rewrite internalRAM_mask; cbn [internalRAM set_internalRAMShadow set_internalRAM];
    now apply index_assigned.
Qed.

(** C5. For every address in [0xC000, 0xDDFF], with no peripheral at it or
    at its echo [addr + 0x2000], [WriteByte addr value] returns, and
    [ReadByte (addr + 0x2000)] right after it returns [value]. *)
Theorem WriteByte_ReadByte_shadow w (addr value : Z) :
  array_lengths (mmu w) ->
  0xC000 <= addr <= 0xDDFF ->
  peripheralIOMap (mmu w) !! addr = None ->
  peripheralIOMap (mmu w) !! (addr + 0x2000) = None ->
  exists w',
    WriteByte addr value w = Returns tt w' /\
    ReadByte (addr + 0x2000) w' = Returns value w'.
Proof.
  intros Hlen Haddr Hfree Hecho.
  eexists. split; [apply WriteByte_internalRAM; [done | lia | done]|].
  destruct Hlen as [_ _ Hshadow _ _].
  pose proof (land_mask_range addr (0xDDFF - 0xC000) ltac:(lia)) as Hi.
  unfold ReadByte, bind, this. cbn [mmu].
  destruct (Z.leb_spec addr 0xDDFF); [|lia].
  cbn [peripheralIOMap set_internalRAMShadow set_internalRAM].
  rewrite Hecho.
  decode. rewrite shadow_mask_offset. cbn [internalRAMShadow].
  apply index_assigned. rewrite Hshadow. lia.
Qed.

End Router_properties.

(** ** Loading the boot ROM *)

Section Boot_properties.
Context {P C E : Type} `{!Collaborators P C E}.
Implicit Type w : World P C E.

Lemma set_bios_same (m : GbcMMU P C) : set_bios (bios m) m = m.
Proof. now destruct m. Qed.

(** The copying loop, started at index [n] with room for all of [data],
    overwrites exactly the cells [n .. n + length data - 1]. *)
Lemma LoadBIOS_loop_copies (data : list Z) :
  forall (n : nat) w,
    (n + length data <= length (bios (mmu w)))%nat ->
    LoadBIOS_loop (Z.of_nat n) data w =
      Returns tt
        (mkWorld
           (set_bios (take n (bios (mmu w)) ++ data ++
                      drop (n + length data) (bios (mmu w))) (mmu w))
           (env w) (console w)).
Proof.
  induction data as [|b rest IH]; intros n w Hroom; cbn [LoadBIOS_loop].
  - cbn [app length]. rewrite Nat.add_0_r, take_drop, set_bios_same.
    now destruct w.
  - cbn [length] in Hroom.
    unfold bind at 1, this. unfold bind at 1.
    rewrite assign_in_range by (unfold len; lia).
    unfold bind at 1. cbn [update mmu env console].
    replace (Z.of_nat n + 1) with (Z.of_nat (S n)) by lia.
    rewrite IH by (cbn [mmu bios set_bios]; rewrite length_insert; lia).
    cbn [mmu env console bios set_bios]. rewrite Nat2Z.id.
    do 2 f_equal. unfold set_bios; cbn. f_equal.
    rewrite (take_S_r _ _ b) by (apply list_lookup_insert_eq; lia).
    rewrite take_insert_ge, drop_insert_lt by lia.
    rewrite <- app_assoc. cbn [app length].
    now replace (n + S (length rest))%nat with (S n + length rest)%nat by lia.
Qed.


(** ** Reset *)

(** C9. [Reset] returns, with boot mode on and the interrupt flag at
    [0x00]; the peripheral map, the cartridge, the boot ROM, work RAM, its
    shadow, zero-page RAM, the reserved scratch, the DMG status register
    and the interrupt-enable register are what they were, and no
    collaborator is called. *)
Theorem Reset_frame w :
  exists w',
    Reset w = Returns tt w' /\
    inBootMode (mmu w') = true /\
    interruptsFlag (mmu w') = 0x00 /\
    peripheralIOMap (mmu w') = peripheralIOMap (mmu w) /\
    cartridge (mmu w') = cartridge (mmu w) /\
    bios (mmu w') = bios (mmu w) /\
    internalRAM (mmu w') = internalRAM (mmu w) /\
    internalRAMShadow (mmu w') = internalRAMShadow (mmu w) /\
    zeroPageRAM (mmu w') = zeroPageRAM (mmu w) /\
    emptySpace (mmu w') = emptySpace (mmu w) /\
    dmgStatusRegister (mmu w') = dmgStatusRegister (mmu w) /\
    interruptsEnabled (mmu w') = interruptsEnabled (mmu w) /\
    env w' = env w.
Proof.
  eexists. split; [reflexivity|].
  cbn [mmu env]. unfold set_interruptsFlag, set_inBootMode. cbn.
  repeat split.
Qed.

End Boot_properties.

(** ** Words *)

Lemma byte_bits_above (b n : Z) : is_byte b -> 8 <= n -> Z.testbit b n = false.
Proof.
  intros [Hlo Hhi] Hn.
  destruct (Z.eq_dec b 0) as [->|Hnz]; [apply Z.bits_0|].
  apply Z.bits_above_log2; [lia|].
  assert (Z.log2 b < 8) by (apply Z.log2_lt_pow2; lia). lia.
Qed.

(** The join of two bytes is [b1 + 256 * b2]: its low-order byte is [b1],
    its high-order byte is [b2], and it fits a [types.Word]. *)
Lemma JoinBytes_little_endian (b1 b2 : Z) :
  is_byte b1 -> is_byte b2 ->
  wrap16 (JoinBytes b1 b2) = b1 + 256 * b2 /\
  Z.land (wrap16 (JoinBytes b1 b2)) 0xFF = b1 /\
  Z.shiftr (wrap16 (JoinBytes b1 b2)) 8 = b2.
Proof.
  intros H1 H2.
  assert (Hsum : JoinBytes b1 b2 = b1 + 256 * b2).
  { unfold JoinBytes. rewrite <- Z.add_nocarry_lor.
    - rewrite Z.shiftl_mul_pow2 by lia. change (2 ^ 8) with 256. lia.
    - apply Z.bits_inj'. intros n Hn.
      rewrite Z.land_spec, Z.bits_0.
      destruct (Z.lt_ge_cases n 8).
      + now rewrite Z.shiftl_spec_low.
      + rewrite (byte_bits_above b1 n) by (done || lia).
        apply andb_false_r. }
  unfold is_byte in *. rewrite Hsum. unfold wrap16.
  rewrite Z.mod_small by lia.
  repeat split.
  - change 0xFF with (Z.ones 8). rewrite Z.land_ones by lia.
    change (2 ^ 8) with 256. Z.div_mod_to_equations. lia.
  - rewrite Z.shiftr_div_pow2 by lia. change (2 ^ 8) with 256.
    Z.div_mod_to_equations. lia.
Qed.

Section Word_properties.
Context {P C E : Type} `{!Collaborators P C E}.
Implicit Type w : World P C E.

Lemma SplitIntoBytes_little_endian (value : Z) :
  is_Word value ->
  SplitIntoBytes (wrap16 value) = (Z.land value 0xFF, Z.shiftr value 8).
Proof.
  intros Hv. unfold is_Word in Hv. unfold SplitIntoBytes, wrap16.
  rewrite Z.mod_small by lia. f_equal.
  change 0xFF with (Z.ones 8).
  rewrite Z.land_ones, Z.shiftr_div_pow2 by lia.
  change (2 ^ 8) with 256. Z.div_mod_to_equations. lia.
Qed.

End Word_properties.

(** ** What every write does *)

Section WriteByte_properties.
Context {P C E : Type} `{!Collaborators P C E}.
Implicit Type w : World P C E.

Lemma assign_Returns (arr arr' : list Z) (i v : Z) w w' :
  assign arr i v w = Returns arr' w' ->
  arr' = <[Z.to_nat i := v]> arr /\ w' = w.
Proof.
  unfold assign. destruct ((0 <=? i) && (i <? len arr)); [|discriminate].
  unfold ret. now intros [= <- <-].
Qed.

Lemma array_lengths_frame (m m' : GbcMMU P C) :
  array_lengths m ->
  len (bios m') = len (bios m) ->
  len (internalRAM m') = len (internalRAM m) ->
  len (internalRAMShadow m') = len (internalRAMShadow m) ->
  len (emptySpace m') = len (emptySpace m) ->
  len (zeroPageRAM m') = len (zeroPageRAM m) ->
  array_lengths m'.
Proof. intros [] ? ? ? ? ?. split; congruence. Qed.

(** X1. The arrays keep their lengths across a write. *)
Theorem WriteByte_preserves_array_lengths w w' (addr value : Z) :
  array_lengths (mmu w) ->
  WriteByte addr value w = Returns tt w' ->
  array_lengths (mmu w').
Proof.
  intros Hlen. unfold WriteByte, bind, this.
  destruct (peripheralIOMap (mmu w) !! addr) as [p|].
  { intros [= <-]. exact Hlen. }
  repeat match goal with
  | |- context [if ?b then _ else _] => destruct b
  end;
  repeat first
    [ progress cbn [deref update call_ mmu env console]
    | progress unfold ret, panic
    | match goal with
      | |- context [deref ?c] => destruct c
      | |- context [assign ?a ?i ?v ?w] =>
          let E := fresh "E" in
          destruct (assign a i v w) eqn:E;
          [apply assign_Returns in E as [-> ->] |]
      end ];
  try discriminate; intros [= <-]; cbn [mmu];
  (eapply array_lengths_frame; [exact Hlen | ..]); cbn;
  rewrite ?len_insert; reflexivity.
Qed.

(** X2. Every write to an address other than [0xFF4C] returns, provided a
    cartridge is loaded when the address is at or below [0xBFFF]. *)
Theorem WriteByte_returns_except_FF4C w (addr value : Z) :
  array_lengths (mmu w) ->
  is_Word addr ->
  addr <> 0xFF4C ->
  (addr <= 0xBFFF -> cartridge (mmu w) <> None) ->
  exists w', WriteByte addr value w = Returns tt w'.
Proof.
  intros [_ Hram Hshadow Hspace Hzero] Haddr Hne Hcart.
  unfold is_Word in Haddr. unfold WriteByte, bind, this.
  destruct (peripheralIOMap (mmu w) !! addr) as [p|]; [now eexists|].
  pose proof (land_mask_range addr (0xDFFF - 0xC000) ltac:(lia)).
  pose proof (land_mask_range addr (0xDDFF - 0xC000) ltac:(lia)).
  pose proof (land_mask_range addr (0xFFFF - 0xFF80) ltac:(lia)).
  decode;
    try (destruct (cartridge (mmu w)) as [c|]; [|exfalso; apply Hcart; [lia|done]]);
    cbn [deref]; unfold ret;
    try (now eexists).
  - rewrite assign_in_range by lia. cbn [update mmu env console].
    rewrite assign_in_range by (cbn; lia). now eexists.
  - rewrite assign_in_range by lia. now eexists.
  - rewrite assign_in_range; [now eexists|].
    unfold wrap16. rewrite Z.mod_small by lia. lia.
  - rewrite assign_in_range by lia. now eexists.
Qed.

(** X3. A write into the graphics window [0x8000, 0x9FFF] that no peripheral
    claims is a call of the cartridge's bank controller. *)
Theorem WriteByte_graphics_window w (addr value : Z) (c : C) :
  0x8000 <= addr <= 0x9FFF ->
  peripheralIOMap (mmu w) !! addr = None ->
  cartridge (mmu w) = Some c ->
  WriteByte addr value w =
    Returns tt (mkWorld (mmu w) (MBC_Write c addr value (env w)) (console w)).
Proof.
  intros Haddr Hfree Hcart. unfold WriteByte, bind, this.
  rewrite Hfree, Hcart. now decode.
Qed.

(** X4. A write at an echo address [0xE000, 0xFDFF] that no peripheral claims
    changes nothing. *)
Theorem WriteByte_shadow_window w (addr value : Z) :
  0xE000 <= addr <= 0xFDFF ->
  peripheralIOMap (mmu w) !! addr = None ->
  WriteByte addr value w = Returns tt w.
Proof.
  intros Haddr Hfree. unfold WriteByte, bind, this.
  rewrite Hfree. now decode.
Qed.

(** Bit 9 is missing from the shadow's mask. *)
Lemma shadow_mask_bit9 (a : Z) :
  Z.land a 0x200 = 0 ->
  Z.land (a + 0x200) (0xDDFF - 0xC000) = Z.land a (0xDDFF - 0xC000).
Proof.
  intros Hbit. rewrite (Z.add_nocarry_lor a 0x200 Hbit).
  rewrite Z.land_lor_distr_l.
  change (Z.land 0x200 (0xDDFF - 0xC000)) with 0.
  apply Z.lor_0_r.
Qed.

(** X5. Two work-RAM addresses that differ in bit 9 only share a shadow cell:
    for [addr] in [0xC000, 0xDBFF] with bit 9 clear, the value written at
    [addr + 0x200] is what the echo address of [addr] reads. *)
Theorem WriteByte_shadow_aliases w (addr value : Z) :
  array_lengths (mmu w) ->
  0xC000 <= addr <= 0xDBFF ->
  Z.land addr 0x200 = 0 ->
  peripheralIOMap (mmu w) !! (addr + 0x200) = None ->
  peripheralIOMap (mmu w) !! (addr + 0x2000) = None ->
  exists w',
    WriteByte (addr + 0x200) value w = Returns tt w' /\
    ReadByte (addr + 0x2000) w' = Returns value w'.
Proof.
  intros Hlen Haddr Hbit Hfree Hecho.
  eexists. split; [apply WriteByte_internalRAM; [done | lia | done]|].
  destruct Hlen as [_ _ Hshadow _ _].
  pose proof (land_mask_range addr (0xDDFF - 0xC000) ltac:(lia)) as Hi.
  unfold ReadByte, bind, this. cbn [mmu].
  destruct (Z.leb_spec (addr + 0x200) 0xDDFF); [|lia].
  cbn [peripheralIOMap set_internalRAMShadow set_internalRAM].
  rewrite Hecho.
  decode. rewrite shadow_mask_offset, shadow_mask_bit9 by done.
  cbn [internalRAMShadow].
  apply index_assigned. rewrite Hshadow. lia.
Qed.

(** X6. The reserved scratch is written one cell below where it is read: for
    [addr] in [0xFF4D, 0xFF7F] other than [0xFF50] and [0xFF51], the value
    written at [addr] is what [addr - 1] reads. *)
Theorem WriteByte_ReadByte_emptySpace_shifted w (addr value : Z) :
  array_lengths (mmu w) ->
  0xFF4D <= addr <= 0xFF7F ->
  addr <> 0xFF50 -> addr <> 0xFF51 ->
  peripheralIOMap (mmu w) !! addr = None ->
  peripheralIOMap (mmu w) !! (addr - 1) = None ->
  exists w',
    WriteByte addr value w = Returns tt w' /\
    ReadByte (addr - 1) w' = Returns value w'.
Proof.
  intros [_ _ _ Hspace _] Haddr Hdmg Hdmg' Hfree Hbelow.
  assert (Hw : wrap16 (addr - 0xFF4D) = addr - 0xFF4D)
    by (unfold wrap16; apply Z.mod_small; lia).
  assert (Hr : wrap16 (addr - 1 - 0xFF4C) = addr - 0xFF4D)
    by (unfold wrap16; rewrite Z.mod_small by lia; lia).
  eexists. split.
  - unfold WriteByte, bind, this. rewrite Hfree. decode.
    rewrite Hw, assign_in_range by lia. reflexivity.
  - unfold ReadByte, bind, this. cbn [mmu peripheralIOMap set_emptySpace].
    rewrite Hbelow. decode. rewrite Hr. cbn [emptySpace].
    apply index_assigned. lia.
Qed.

(** X7. The interrupt registers [0xFF0F] and [0xFFFF] and zero-page RAM
    [0xFF80, 0xFFFE] give back what was written. *)
Theorem WriteByte_ReadByte_high_page w (addr value : Z) :
  array_lengths (mmu w) ->
  addr = 0xFF0F \/ 0xFF80 <= addr <= 0xFFFF ->
  peripheralIOMap (mmu w) !! addr = None ->
  exists w',
    WriteByte addr value w = Returns tt w' /\
    ReadByte addr w' = Returns value w'.
Proof.
  intros [_ _ _ _ Hzero] Haddr Hfree.
  pose proof (land_mask_range addr (0xFFFF - 0xFF80) ltac:(lia)) as Hi.
  unfold WriteByte, ReadByte, bind, this. rewrite Hfree.
  destruct Haddr as [-> | Haddr].
  - eexists. split; [reflexivity|]. cbn [mmu update].
    cbn [peripheralIOMap set_interruptsFlag]. now rewrite Hfree.
  - decode.
    + eexists. split; [reflexivity|]. cbn [mmu update].
      cbn [peripheralIOMap set_interruptsEnabled]. now rewrite Hfree.
    + rewrite assign_in_range by lia.
      eexists. split; [reflexivity|]. cbn [mmu update].
      cbn [peripheralIOMap set_zeroPageRAM]. rewrite Hfree.
      cbn [zeroPageRAM]. apply index_assigned. lia.
Qed.

End WriteByte_properties.

(** ** Words, read and written *)

Section Word_round_trip.
Context {P C E : Type} `{!Collaborators P C E}.
Implicit Type w : World P C E.

(** What a read of work RAM returns is the cell at [addr mod 8192]. *)
Lemma ReadByte_internalRAM w (addr b : Z) :
  0xC000 <= addr <= 0xDFFF ->
  peripheralIOMap (mmu w) !! addr = None ->
  internalRAM (mmu w) !! Z.to_nat (addr mod 8192) = Some b ->
  ReadByte addr w = Returns b w.
Proof.
  intros Haddr Hfree Hb. unfold ReadByte, bind, this. rewrite Hfree.
  decode. rewrite internalRAM_mask.
  apply index_in_range; [apply Z.mod_pos_bound; lia | exact Hb].
Qed.

(** A write into work RAM, by what it leaves: the cell holds the value,
    the other cells, the peripheral map and the array lengths are kept. *)
Lemma WriteByte_internalRAM_cell w (addr value : Z) :
  array_lengths (mmu w) ->
  0xC000 <= addr <= 0xDFFF ->
  peripheralIOMap (mmu w) !! addr = None ->
  exists w',
    WriteByte addr value w = Returns tt w' /\
    internalRAM (mmu w') =
      <[Z.to_nat (addr mod 8192) := value]> (internalRAM (mmu w)) /\
    peripheralIOMap (mmu w') = peripheralIOMap (mmu w) /\
    array_lengths (mmu w').
Proof.
  intros Hlen Haddr Hfree.
  eexists. split; [now apply WriteByte_internalRAM|].
  cbn [mmu]. destruct (addr <=? 0xDDFF); cbn; (split; [reflexivity|]);
    (split; [reflexivity|]);
    (apply (array_lengths_frame (mmu w)); [exact Hlen | ..]); cbn;
    rewrite ?len_insert; reflexivity.
Qed.

(** C7. [ReadWord addr] is the little-endian join of the two byte reads:
    when the reads at [addr] and then at [addr + 1] (wrapping as a
    [types.Word]) return the bytes [b1] and [b2], it returns the word
    [b1 + 256 * b2], whose low-order byte is [b1] and whose high-order
    byte is [b2], in the world the second read left.  [WriteWord addr
    value] is the write of the low byte of [value] at [addr] followed by
    the write of its high byte at [addr + 1]; where both bytes land in
    work RAM, [addr] then reads the low byte, [addr + 1] the high byte,
    and [ReadWord addr] gives [value] back. *)
Theorem ReadWord_WriteWord_little_endian w (addr value : Z) :
  is_Word value ->
  (forall b1 b2 w1 w2,
     ReadByte addr w = Returns b1 w1 ->
     ReadByte (wrap16 (addr + 1)) w1 = Returns b2 w2 ->
     is_byte b1 -> is_byte b2 ->
     exists v,
       ReadWord addr w = Returns v w2 /\
       v = b1 + 256 * b2 /\
       Z.land v 0xFF = b1 /\
       Z.shiftr v 8 = b2) /\
  WriteWord addr value w =
    (WriteByte addr (Z.land value 0xFF) ;;;
     WriteByte (wrap16 (addr + 1)) (Z.shiftr value 8)) w /\
  (array_lengths (mmu w) ->
   0xC000 <= addr <= 0xDFFE ->
   peripheralIOMap (mmu w) !! addr = None ->
   peripheralIOMap (mmu w) !! (addr + 1) = None ->
   exists w',
     WriteWord addr value w = Returns tt w' /\
     ReadByte addr w' = Returns (Z.land value 0xFF) w' /\
     ReadByte (addr + 1) w' = Returns (Z.shiftr value 8) w' /\
     ReadWord addr w' = Returns value w').
Proof.
  intros Hv. split; [|split].
  - intros b1 b2 w1 w2 Hr1 Hr2 Hb1 Hb2.
    destruct (JoinBytes_little_endian b1 b2 Hb1 Hb2) as (Hsum & Hlo & Hhi).
    exists (wrap16 (JoinBytes b1 b2)). repeat split; try assumption.
    unfold ReadWord, bind. now rewrite Hr1, Hr2.
  - unfold WriteWord. now rewrite SplitIntoBytes_little_endian.
  - intros Hlen Haddr Hfree Hfree'.
    assert (Hnext : wrap16 (addr + 1) = addr + 1)
      by (unfold wrap16; apply Z.mod_small; lia).
    destruct (WriteByte_internalRAM_cell w addr (Z.land value 0xFF))
      as (w1 & Hw1 & Hram1 & Hio1 & Hlen1); [done | lia | done |].
    destruct (WriteByte_internalRAM_cell w1 (addr + 1) (Z.shiftr value 8))
      as (w2 & Hw2 & Hram2 & Hio2 & Hlen2); [done | lia | congruence |].
    pose proof Hlen as [_ Hram _ _ _]. unfold len in Hram.
    assert (Hi : (Z.to_nat (addr mod 8192) < length (internalRAM (mmu w)))%nat)
      by (pose proof (Z.mod_pos_bound addr 8192); lia).
    assert (Hi' : (Z.to_nat ((addr + 1) mod 8192)
                   < length (internalRAM (mmu w)))%nat)
      by (pose proof (Z.mod_pos_bound (addr + 1) 8192); lia).
    assert (Hne : Z.to_nat ((addr + 1) mod 8192) <> Z.to_nat (addr mod 8192)).
    { intros Heq. apply Z2Nat.inj in Heq;
        [| apply Z.mod_pos_bound; lia | apply Z.mod_pos_bound; lia].
      revert Heq. Z.div_mod_to_equations. lia. }
    assert (Hlow : ReadByte addr w2 = Returns (Z.land value 0xFF) w2).
    { apply ReadByte_internalRAM; [lia | congruence |].
      rewrite Hram2, Hram1, list_lookup_insert_ne by exact Hne.
      now apply list_lookup_insert_eq. }
    assert (Hhigh : ReadByte (addr + 1) w2 = Returns (Z.shiftr value 8) w2).
    { apply ReadByte_internalRAM; [lia | congruence |].
      rewrite Hram2. apply list_lookup_insert_eq.
      now rewrite Hram1, length_insert. }
    exists w2. split; [|split; [exact Hlow | split; [exact Hhigh|]]].
    + unfold WriteWord. rewrite SplitIntoBytes_little_endian by exact Hv.
      unfold bind. now rewrite Hnext, Hw1, Hw2.
    + unfold ReadWord, bind. rewrite Hnext, Hlow, Hhigh. unfold ret.
      f_equal.
      assert (Hlo : is_byte (Z.land value 0xFF)).
      { unfold is_byte. change 0xFF with (Z.ones 8).
        rewrite Z.land_ones by lia. apply Z.mod_pos_bound. lia. }
      assert (Hhi : is_byte (Z.shiftr value 8)).
      { unfold is_byte, is_Word in *. rewrite Z.shiftr_div_pow2 by lia.
        change (2 ^ 8) with 256. Z.div_mod_to_equations. lia. }
      destruct (JoinBytes_little_endian _ _ Hlo Hhi) as (-> & _ & _).
      unfold is_Word in Hv. change 0xFF with (Z.ones 8).
      rewrite Z.land_ones, Z.shiftr_div_pow2 by lia.
      change (2 ^ 8) with 256. Z.div_mod_to_equations. lia.
Qed.

End Word_round_trip.

(** ** Wiring peripherals *)

Section ConnectPeripheral_properties.
Context {P C E : Type} `{!Collaborators P C E}.
Implicit Type w : World P C E.

Lemma set_peripheralIOMap_same w :
  mkWorld (set_peripheralIOMap (peripheralIOMap (mmu w)) (mmu w)) (env w) (console w) = w.
Proof. destruct w as [[] ? ?]. reflexivity. Qed.

(** With [0xFFFF] as its bound the loop's test never fails: the counter
    wraps to [0x0000] after [0xFFFF]. *)
Lemma ConnectPeripheral_loop_no_exit (fuel : nat) :
  forall (p : P) (addr : Z) w,
    is_Word addr -> ConnectPeripheral_loop fuel p addr 0xFFFF w = None.
Proof.
  induction fuel as [|fuel IH]; intros p addr w Haddr; [reflexivity|].
  cbn [ConnectPeripheral_loop]. unfold is_Word in Haddr.
  destruct (Z.leb_spec addr 0xFFFF); [|lia].
  unfold bind_address, bind, this, update.
  apply IH. unfold is_Word, wrap16. apply Z.mod_pos_bound. lia.
Qed.

(** From [addr], with [n] addresses left up to [endAddr], the loop ends
    after [n] iterations (one more test), having bound exactly those. *)
Lemma ConnectPeripheral_loop_binds (p : P) (endAddr : Z) :
  endAddr < 0xFFFF ->
  forall (n : nat) (addr : Z) w,
    0 <= addr ->
    addr + Z.of_nat n = endAddr + 1 ->
    exists io,
      ConnectPeripheral_loop (S n) p addr endAddr w =
        Some (Returns tt (mkWorld (set_peripheralIOMap io (mmu w)) (env w) (console w))) /\
      forall a, io !! a =
        if (addr <=? a) && (a <=? endAddr) then Some p
        else peripheralIOMap (mmu w) !! a.
Proof.
  intros Hend. induction n as [|n IH]; intros addr w Haddr Hn.
  - exists (peripheralIOMap (mmu w)). cbn [ConnectPeripheral_loop].
    destruct (Z.leb_spec addr endAddr); [lia|].
    split; [now rewrite set_peripheralIOMap_same|].
    intros a. now decode.
  - remember (S n) as fuel. cbn [ConnectPeripheral_loop]. subst fuel.
    destruct (Z.leb_spec addr endAddr); [|lia].
    unfold bind_address, bind, this, update.
    assert (Hnext : wrap16 (addr + 1) = addr + 1)
      by (unfold wrap16; apply Z.mod_small; lia).
    rewrite Hnext.
    destruct (IH (addr + 1)
                (mkWorld (set_peripheralIOMap (<[addr := p]> (peripheralIOMap (mmu w))) (mmu w))
                   (env w) (console w)))
      as (io & Hrun & Hio); [lia | lia |].
    exists io. split; [exact Hrun|].
    intros a. rewrite Hio. cbn [mmu peripheralIOMap set_peripheralIOMap].
    destruct (Z.eq_dec a addr) as [->|Hne].
    + rewrite lookup_insert_eq. now decode.
    + rewrite lookup_insert_ne by done. now decode.
Qed.

(** X8. [ConnectPeripheral] over a range that ends below [0xFFFF], or over a
    single address, returns: the peripheral map then sends the addresses of
    [startAddr .. endAddr] to [p] and every other address where it sent it
    before, and nothing but the map and the log has changed. *)
Theorem ConnectPeripheral_binds_range w (p : P) (startAddr endAddr : Z) :
  is_Word startAddr ->
  startAddr <= endAddr ->
  endAddr < 0xFFFF \/ startAddr = endAddr ->
  exists fuel w',
    ConnectPeripheral fuel p startAddr endAddr w = Some (Returns tt w') /\
    (forall a, peripheralIOMap (mmu w') !! a =
       if (startAddr <=? a) && (a <=? endAddr) then Some p
       else peripheralIOMap (mmu w) !! a) /\
    mmu w' = set_peripheralIOMap (peripheralIOMap (mmu w')) (mmu w) /\
    env w' = env w.
Proof.
  intros Hstart Hle Hend. unfold is_Word in Hstart. unfold ConnectPeripheral.
  destruct (Z.eqb_spec startAddr endAddr) as [<-|Hne].
  - exists 0%nat. eexists. split; [reflexivity|].
    cbn [mmu env peripheralIOMap set_peripheralIOMap]. repeat split.
    intros a. destruct (Z.eq_dec a startAddr) as [->|Hne].
    + rewrite lookup_insert_eq. now decode.
    + rewrite lookup_insert_ne by done. now decode.
  - destruct Hend as [Hend|]; [|done].
    unfold bind, ask, log.
    edestruct (ConnectPeripheral_loop_binds p endAddr Hend
                 (Z.to_nat (endAddr + 1 - startAddr)) startAddr)
      as (io & Hrun & Hio); [lia | lia |].
    exists (S (Z.to_nat (endAddr + 1 - startAddr))). eexists.
    split; [exact Hrun|].
    cbn [mmu env peripheralIOMap set_peripheralIOMap]. repeat split.
    exact Hio.
Qed.

(** X9. [ConnectPeripheral] over a range of two or more addresses that ends at
    [0xFFFF] never leaves its loop. *)
Theorem ConnectPeripheral_diverges_at_FFFF w (p : P) (startAddr : Z) (fuel : nat) :
  is_Word startAddr ->
  startAddr <> 0xFFFF ->
  ConnectPeripheral fuel p startAddr 0xFFFF w = None.
Proof.
  intros Hstart Hne. unfold ConnectPeripheral.
  destruct (Z.eqb_spec startAddr 0xFFFF); [done|].
  unfold bind, ask, log. now apply ConnectPeripheral_loop_no_exit.
Qed.

End ConnectPeripheral_properties.

(** ** The order of decoding *)

Section Decoding_order.
Context {P C E : Type} `{!Collaborators P C E}.
Implicit Type w : World P C E.

(** X10. A bound peripheral comes first, for writes and for reads alike. *)
Theorem peripheral_takes_precedence w (p : P) (addr value : Z) :
  peripheralIOMap (mmu w) !! addr = Some p ->
  WriteByte addr value w =
    Returns tt (mkWorld (mmu w) (Peripheral_Write p addr value (env w)) (console w)) /\
  ReadByte addr w =
    Returns (Peripheral_Read p addr (env w)).1
      (mkWorld (mmu w) (Peripheral_Read p addr (env w)).2 (console w)).
Proof.
  intros Hp. unfold WriteByte, ReadByte, bind, this. rewrite Hp.
  split; [reflexivity|]. unfold call.
  now destruct (Peripheral_Read p addr (env w)).
Qed.

(** X11. Below [0x0100] a read is served by the boot ROM while in boot mode and
    by the cartridge afterwards. *)
Theorem ReadByte_boot_window w (addr : Z) (c : C) :
  array_lengths (mmu w) ->
  0 <= addr < 0x0100 ->
  peripheralIOMap (mmu w) !! addr = None ->
  cartridge (mmu w) = Some c ->
  (inBootMode (mmu w) = true ->
   exists b, bios (mmu w) !! Z.to_nat addr = Some b /\
             ReadByte addr w = Returns b w) /\
  returned ((SetInBootMode false ;;; ReadByte addr) w)
    = Some (MBC_Read c addr (env w)).1.
Proof.
  intros [Hbios _ _ _ _] Haddr Hfree Hcart. split.
  - intros Hboot. unfold ReadByte, bind, this. rewrite Hfree, Hboot.
    decode.
    destruct (lookup_lt_is_Some_2 (bios (mmu w)) (Z.to_nat addr)) as [b Hb];
      [unfold len in Hbios; lia|].
    exists b. split; [exact Hb|]. apply index_in_range; [lia | exact Hb].
  - unfold SetInBootMode, ReadByte, bind, this, update.
    cbn [mmu env console peripheralIOMap cartridge inBootMode set_inBootMode].
    rewrite Hfree, Hcart. decode. cbn [deref]. unfold ret, call.
    cbn [env]. now destruct (MBC_Read c addr (env w)).
Qed.

End Decoding_order.

(** ** What every read does *)

Section ReadByte_properties.
Context {P C E : Type} `{!Collaborators P C E}.
Implicit Type w : World P C E.

Lemma index_returns (arr : list Z) (i : Z) w :
  0 <= i < len arr ->
  exists b, arr !! Z.to_nat i = Some b /\ index arr i w = Returns b w.
Proof.
  intros Hi.
  destruct (lookup_lt_is_Some_2 arr (Z.to_nat i)) as [b Hb];
    [unfold len in Hi; lia|].
  exists b. split; [exact Hb|]. apply index_in_range; [lia | exact Hb].
Qed.

(** X12. Every read returns, provided a cartridge is loaded when the
    address is at or below [0xBFFF], and it leaves the router as it found
    it: no read changes a register, an array, the boot mode, the cartridge
    handle or the peripheral map. *)
Theorem ReadByte_returns_and_keeps_router w (addr : Z) :
  array_lengths (mmu w) ->
  is_Word addr ->
  (addr <= 0xBFFF -> cartridge (mmu w) <> None) ->
  exists b w', ReadByte addr w = Returns b w' /\ mmu w' = mmu w.
Proof.
  intros [Hbios Hram Hshadow Hspace Hzero] Haddr Hcart.
  unfold is_Word in Haddr. unfold ReadByte, bind, this.
  destruct (peripheralIOMap (mmu w) !! addr) as [p|].
  { unfold call. destruct (Peripheral_Read p addr (env w)) as [b e].
    now exists b, (mkWorld (mmu w) e (console w)). }
  pose proof (land_mask_range addr (0xDFFF - 0xC000) ltac:(lia)).
  pose proof (land_mask_range addr (0xFDFF - 0xE000) ltac:(lia)).
  pose proof (land_mask_range addr (0xFFFF - 0xFF80) ltac:(lia)).
  assert (Hscratch : 0xFF4C <= addr <= 0xFF7F ->
                     0 <= wrap16 (addr - 0xFF4C) < 52)
    by (intros ?; unfold wrap16; rewrite Z.mod_small by lia; lia).
  decode;
    try (destruct (cartridge (mmu w)) as [c|]; [|exfalso; apply Hcart; [lia|done]]);
    try (destruct (inBootMode (mmu w)); cbn [andb]);
    cbn [deref]; unfold ret, call, log;
    try (destruct (MBC_Read c addr (env w)) as [b e]);
    try (now eexists _, _);
    match goal with
    | |- context [index ?arr ?i w] =>
        destruct (index_returns arr i w) as (cell & _ & ->); [lia|];
        now exists cell, w
    end.
Qed.

(** X13. A read of an address that no case of the decoder covers - the
    graphics window [0x8000, 0x9FFF], [0xFE00, 0xFF0E] and
    [0xFF10, 0xFF4B] - with no peripheral bound there returns [0x00],
    leaves router and collaborators alone and logs one warning. *)
Theorem ReadByte_unmapped w (addr : Z) :
  0x8000 <= addr <= 0x9FFF \/ 0xFE00 <= addr <= 0xFF0E \/
    0xFF10 <= addr <= 0xFF4B ->
  peripheralIOMap (mmu w) !! addr = None ->
  ReadByte addr w =
    Returns 0x00 (mkWorld (mmu w) (env w) (console w ++ [LogReadUnmapped addr])).
Proof.
  intros Haddr Hfree. unfold ReadByte, bind, this. rewrite Hfree.
  now decode.
Qed.

(** X14. A write to [0xFE00, 0xFF0E] or [0xFF10, 0xFF4B] with no
    peripheral bound there returns and changes nothing, the log
    included. *)
Theorem WriteByte_unmapped w (addr value : Z) :
  0xFE00 <= addr <= 0xFF0E \/ 0xFF10 <= addr <= 0xFF4B ->
  peripheralIOMap (mmu w) !! addr = None ->
  WriteByte addr value w = Returns tt w.
Proof.
  intros Haddr Hfree. unfold WriteByte, bind, this. rewrite Hfree.
  now decode.
Qed.

(** X15. Without a cartridge ([mmu.cartridge] is nil, as after
    [NewGbcMMU]) an access that the decoder sends to the cartridge panics
    with a nil dereference: every write at or below [0xBFFF], and every
    read in [0x0100, 0x7FFF] or [0xA000, 0xBFFF], or below [0x0100] once
    boot mode is off. *)
Theorem access_without_cartridge_panics w (addr value : Z) :
  cartridge (mmu w) = None ->
  peripheralIOMap (mmu w) !! addr = None ->
  (0 <= addr <= 0xBFFF ->
   WriteByte addr value w = Panics NilPointerDereference) /\
  (0x0100 <= addr <= 0x7FFF \/ 0xA000 <= addr <= 0xBFFF \/
     (0 <= addr < 0x0100 /\ inBootMode (mmu w) = false) ->
   ReadByte addr w = Panics NilPointerDereference).
Proof.
  intros Hcart Hfree. split; intros Haddr.
  - unfold WriteByte, bind, this. rewrite Hfree, Hcart. now decode.
  - unfold ReadByte, bind, this. rewrite Hfree, Hcart.
    destruct Haddr as [?|[?|[? ->]]]; decode;
      rewrite ?andb_false_r; reflexivity.
Qed.

End ReadByte_properties.

(** ** What a write leaves alone *)

Section WriteByte_frame_properties.
Context {P C E : Type} `{!Collaborators P C E}.
Implicit Type w : World P C E.

(** X16. No write, whatever its address, changes the boot ROM, the
    cartridge handle, the boot mode or the peripheral map, and none logs:
    the boot ROM in particular is never written through the address
    space. *)
Theorem WriteByte_keeps_wiring w w' (addr value : Z) :
  WriteByte addr value w = Returns tt w' ->
  bios (mmu w') = bios (mmu w) /\
  cartridge (mmu w') = cartridge (mmu w) /\
  inBootMode (mmu w') = inBootMode (mmu w) /\
  peripheralIOMap (mmu w') = peripheralIOMap (mmu w) /\
  console w' = console w.
Proof.
  unfold WriteByte, bind, this.
  destruct (peripheralIOMap (mmu w) !! addr) as [p|].
  { now intros [= <-]. }
  repeat match goal with
  | |- context [if ?b then _ else _] => destruct b
  end;
  repeat first
    [ progress cbn [deref update call_ mmu env console]
    | progress unfold ret, panic
    | match goal with
      | |- context [deref ?c] => destruct c eqn:?
      | |- context [assign ?a ?i ?v ?w] =>
          let E := fresh "E" in
          destruct (assign a i v w) eqn:E;
          [apply assign_Returns in E as [-> ->] |]
      end ];
  try discriminate; intros [= <-]; cbn [mmu console];
  repeat split; congruence.
Qed.

(** X17. Within work RAM a write touches one cell only: for two different
    addresses of [0xC000, 0xDFFF], neither claimed by a peripheral, what
    the second reads is the same before and after a write to the first. *)
Theorem WriteByte_internalRAM_elsewhere w (addr other value : Z) :
  array_lengths (mmu w) ->
  0xC000 <= addr <= 0xDFFF ->
  0xC000 <= other <= 0xDFFF ->
  addr <> other ->
  peripheralIOMap (mmu w) !! addr = None ->
  peripheralIOMap (mmu w) !! other = None ->
  exists b w',
    ReadByte other w = Returns b w /\
    WriteByte addr value w = Returns tt w' /\
    ReadByte other w' = Returns b w'.
Proof.
  intros Hlen Haddr Hother Hne Hfree Hfree'.
  pose proof Hlen as [_ Hram _ _ _].
  assert (Hi : 0 <= other mod 8192 < len (internalRAM (mmu w)))
    by (rewrite Hram; apply Z.mod_pos_bound; lia).
  destruct (index_returns (internalRAM (mmu w)) (other mod 8192) w Hi)
    as (b & Hb & Hread).
  exists b. eexists. split; [|split].
  - unfold ReadByte, bind, this. rewrite Hfree'. decode.
    now rewrite internalRAM_mask.
  - now apply WriteByte_internalRAM.
  - unfold ReadByte, bind, this. cbn [mmu].
    replace (peripheralIOMap _ !! other) with (@None P)
      by (now destruct (addr <=? 0xDDFF)).
    decode; rewrite internalRAM_mask;
      cbn [internalRAM set_internalRAMShadow set_internalRAM];
      (apply index_in_range; [lia|]);
      (rewrite list_lookup_insert_ne; [exact Hb|]);
      intros Heq; apply Z2Nat.inj in Heq; try lia;
      revert Heq; Z.div_mod_to_equations; lia.
Qed.

End WriteByte_frame_properties.

(** ** The boot ROM, the cartridge and reset, as reads see them *)

Section Boot_and_cartridge.
Context {P C E : Type} `{!Collaborators P C E}.
Implicit Type w : World P C E.

Lemma LoadBIOS_fits w (data : list Z) :
  len data <= len (bios (mmu w)) ->
  LoadBIOS data w =
    Returns (true, None)
      (mkWorld (set_bios (data ++ drop (length data) (bios (mmu w))) (mmu w))
         (env w) (console w ++ [LogLoadingBIOS (len data)])).
Proof.
  intros Hdata. unfold LoadBIOS, bind, log, this. cbn [mmu].
  destruct (Z.ltb_spec (len (bios (mmu w))) (len data)); [lia|].
  change 0 with (Z.of_nat 0).
  rewrite LoadBIOS_loop_copies by (cbn [mmu]; unfold len in *; lia).
  reflexivity.
Qed.

(** X18. After [LoadBIOS] of an image of at most 256 bytes, a read below
    [0x0100] in boot mode returns the image's byte at that offset; at the
    offsets the image does not reach it returns what the boot ROM held
    before the load (a shorter image does not clear the rest). *)
Theorem LoadBIOS_then_ReadByte w (data : list Z) (addr : Z) :
  array_lengths (mmu w) ->
  len data <= 256 ->
  inBootMode (mmu w) = true ->
  0 <= addr < 0x0100 ->
  peripheralIOMap (mmu w) !! addr = None ->
  exists w',
    LoadBIOS data w = Returns (true, None) w' /\
    (forall b, data !! Z.to_nat addr = Some b ->
               ReadByte addr w' = Returns b w') /\
    (forall b, len data <= addr ->
               bios (mmu w) !! Z.to_nat addr = Some b ->
               ReadByte addr w' = Returns b w').
Proof.
  intros [Hbios _ _ _ _] Hdata Hboot Haddr Hfree.
  eexists. split; [apply LoadBIOS_fits; lia|].
  unfold ReadByte, bind, this.
  cbn [mmu peripheralIOMap inBootMode bios set_bios].
  rewrite Hfree, Hboot. decode.
  split; intros b.
  - intros Hb. apply index_in_range; [lia|].
    now apply lookup_app_l_Some.
  - intros Hpast Hb. apply index_in_range; [lia|].
    unfold len in Hpast.
    rewrite lookup_app_r by lia. rewrite lookup_drop.
    now replace (length data + (Z.to_nat addr - length data))%nat
      with (Z.to_nat addr) by lia.
Qed.

(** X19. [LoadCartridge] replaces whatever cartridge was loaded: right
    after it, a write at or below [0xBFFF] and a read in [0x0100, 0x7FFF]
    or [0xA000, 0xBFFF], at an address no peripheral claims, are calls of
    the new cartridge's bank controller. *)
Theorem LoadCartridge_then_access w (cart : C) (addr value : Z) :
  peripheralIOMap (mmu w) !! addr = None ->
  (0 <= addr <= 0xBFFF ->
   (LoadCartridge cart ;;; WriteByte addr value) w =
     Returns tt
       (mkWorld (set_cartridge (Some cart) (mmu w))
          (MBC_Write cart addr value (env w))
          (console w ++ [LogLoadedCartridge (Cartridge_String cart (env w))]))) /\
  (0x0100 <= addr <= 0x7FFF \/ 0xA000 <= addr <= 0xBFFF ->
   (LoadCartridge cart ;;; ReadByte addr) w =
     Returns (MBC_Read cart addr (env w)).1
       (mkWorld (set_cartridge (Some cart) (mmu w))
          (MBC_Read cart addr (env w)).2
          (console w ++ [LogLoadedCartridge (Cartridge_String cart (env w))]))).
Proof.
  intros Hfree. split; intros Haddr.
  - unfold LoadCartridge, WriteByte, bind, this, update, ask, log.
    cbn [mmu env console peripheralIOMap cartridge set_cartridge].
    rewrite Hfree. now decode.
  - unfold LoadCartridge, ReadByte, bind, this, update, ask, log.
    cbn [mmu env console peripheralIOMap cartridge set_cartridge inBootMode].
    rewrite Hfree.
    destruct Haddr; decode; rewrite ?andb_false_r; cbn [deref];
      unfold ret, call; cbn [mmu env console];
      now destruct (MBC_Read cart addr (env w)).
Qed.

(** X20. [Reset] leaves the router with boot mode on and the interrupt
    flag cleared, whatever came before; on the router it leaves,
    [0xFF0F] reads [0x00] and a read below [0x0100] returns the boot ROM's
    byte, and neither read changes the world: no collaborator is called,
    so the cartridge is not consulted, loaded or not. *)
Theorem Reset_then_ReadByte w (addr b : Z) :
  0 <= addr < 0x0100 ->
  peripheralIOMap (mmu w) !! addr = None ->
  peripheralIOMap (mmu w) !! 0xFF0F = None ->
  bios (mmu w) !! Z.to_nat addr = Some b ->
  exists w',
    Reset w = Returns tt w' /\
    w' = mkWorld (set_interruptsFlag 0x00 (set_inBootMode true (mmu w)))
           (env w) (console w ++ [LogResetting]) /\
    ReadByte 0xFF0F w' = Returns 0x00 w' /\
    ReadByte addr w' = Returns b w'.
Proof.
  intros Haddr Hfree Hflag Hb.
  eexists. split; [reflexivity|]. split; [reflexivity|].
  unfold ReadByte, bind, this.
  cbn [mmu peripheralIOMap inBootMode bios interruptsFlag
       set_interruptsFlag set_inBootMode].
  rewrite Hflag, Hfree. split; [reflexivity|].
  decode. apply index_in_range; [lia | exact Hb].
Qed.

End Boot_and_cartridge.

(** ** A new router *)

Section NewGbcMMU_properties.
Context {P C E : Type} `{!Collaborators P C E}.
Implicit Type w : World P C E.

Lemma index_zeroes (n i : Z) w :
  0 <= i < n -> index (replicate (Z.to_nat n) 0) i w = Returns 0 w.
Proof.
  intros Hi. apply index_in_range; [lia|].
  apply lookup_replicate_2. lia.
Qed.

(** X21. [NewGbcMMU] gives a router with arrays of the declared lengths,
    no peripheral, no cartridge and boot mode on, and calls no
    collaborator; every address it serves from its own stores - below
    [0x0100], the graphics window, and everything from [0xC000] up - reads
    [0x00]. *)
Theorem NewGbcMMU_fresh w :
  exists w',
    NewGbcMMU w = Returns tt w' /\
    array_lengths (mmu w') /\
    peripheralIOMap (mmu w') = ∅ /\
    cartridge (mmu w') = None /\
    inBootMode (mmu w') = true /\
    env w' = env w /\
    forall addr,
      0 <= addr < 0x0100 \/ 0x8000 <= addr <= 0x9FFF \/
        0xC000 <= addr <= 0xFFFF ->
      returned (ReadByte addr w') = Some 0x00.
Proof.
  eexists. split; [reflexivity|].
  cbn [mmu env]. split; [now split|]. do 4 (split; [reflexivity|]).
  intros addr Haddr.
  unfold ReadByte, bind, this.
  cbn [mmu peripheralIOMap set_interruptsFlag set_inBootMode
       set_peripheralIOMap zero_GbcMMU].
  rewrite lookup_empty.
  pose proof (land_mask_range addr (0xDFFF - 0xC000) ltac:(lia)).
  pose proof (land_mask_range addr (0xFDFF - 0xE000) ltac:(lia)).
  pose proof (land_mask_range addr (0xFFFF - 0xFF80) ltac:(lia)).
  assert (Hscratch : 0xFF4C <= addr <= 0xFF7F ->
                     0 <= wrap16 (addr - 0xFF4C) < 52)
    by (intros ?; unfold wrap16; rewrite Z.mod_small by lia; lia).
  cbn [inBootMode bios internalRAM internalRAMShadow emptySpace zeroPageRAM
       interruptsFlag interruptsEnabled dmgStatusRegister andb
       set_interruptsFlag set_inBootMode set_peripheralIOMap zero_GbcMMU
       peripheralIOMap cartridge].
  decode; try reflexivity; now rewrite index_zeroes by lia.
Qed.

End NewGbcMMU_properties.

(** ** Wiring, continued *)

Section Wiring_properties.
Context {P C E : Type} `{!Collaborators P C E}.
Implicit Type w : World P C E.

(** X22. [ConnectPeripheral] with [startAddr] above [endAddr] binds
    nothing: it returns after the loop's first test, with only the log
    line added. *)
Theorem ConnectPeripheral_empty_range w (p : P) (startAddr endAddr : Z)
    (fuel : nat) :
  endAddr < startAddr ->
  ConnectPeripheral (S fuel) p startAddr endAddr w =
    Some (Returns tt
            (mkWorld (mmu w) (env w)
               (console w ++
                  [LogConnectRange (Peripheral_Name p (env w)) startAddr endAddr]))).
Proof.
  intros Hgt. unfold ConnectPeripheral.
  destruct (Z.eqb_spec startAddr endAddr); [lia|].
  unfold bind, ask, log. cbn [ConnectPeripheral_loop].
  now destruct (Z.leb_spec startAddr endAddr); [lia|].
Qed.

(** X23. Once [ConnectPeripheral(p, startAddr, endAddr)] has returned,
    every address of the range delegates to [p]: a write there is
    [p.Write], a read is [p.Read], and the router's own state is not
    consulted. *)
Theorem ConnectPeripheral_then_access w (p : P)
    (startAddr endAddr addr value : Z) :
  is_Word startAddr ->
  endAddr < 0xFFFF \/ startAddr = endAddr ->
  startAddr <= addr <= endAddr ->
  exists fuel w',
    ConnectPeripheral fuel p startAddr endAddr w = Some (Returns tt w') /\
    env w' = env w /\
    WriteByte addr value w' =
      Returns tt (mkWorld (mmu w') (Peripheral_Write p addr value (env w')) (console w')) /\
    ReadByte addr w' =
      Returns (Peripheral_Read p addr (env w')).1
        (mkWorld (mmu w') (Peripheral_Read p addr (env w')).2 (console w')).
Proof.
  intros Hstart Hend Haddr. unfold is_Word in Hstart.
  assert (Hbound :
    exists fuel w',
      ConnectPeripheral fuel p startAddr endAddr w = Some (Returns tt w') /\
      env w' = env w /\
      peripheralIOMap (mmu w') !! addr = Some p).
  { unfold ConnectPeripheral.
    destruct (Z.eqb_spec startAddr endAddr) as [<-|Hne].
    - exists 0%nat. eexists. split; [reflexivity|]. split; [reflexivity|].
      cbn [mmu peripheralIOMap set_peripheralIOMap].
      replace addr with startAddr by lia. apply lookup_insert_eq.
    - destruct Hend as [Hend|]; [|done].
      unfold bind, ask, log.
      edestruct (ConnectPeripheral_loop_binds (C := C) (E := E) p endAddr Hend
                   (Z.to_nat (endAddr + 1 - startAddr)) startAddr)
        as (io & Hrun & Hio); [lia | lia |].
      exists (S (Z.to_nat (endAddr + 1 - startAddr))). eexists.
      split; [exact Hrun|]. split; [reflexivity|].
      cbn [mmu peripheralIOMap set_peripheralIOMap].
      rewrite Hio. now decode. }
  destruct Hbound as (fuel & w' & Hrun & Henv & Hp).
  exists fuel, w'. split; [exact Hrun|]. split; [exact Henv|].
  unfold WriteByte, ReadByte, bind, this. rewrite Hp.
  split; [reflexivity|]. unfold call.
  now destruct (Peripheral_Read p addr (env w')).
Qed.

Lemma ConnectPeripheral_loop_array_lengths (fuel : nat) :
  forall (p : P) (addr endAddr : Z) w w',
    ConnectPeripheral_loop fuel p addr endAddr w = Some (Returns tt w') ->
    array_lengths (mmu w) -> array_lengths (mmu w').
Proof.
  induction fuel as [|fuel IH]; intros p addr endAddr w w'; [discriminate|].
  cbn [ConnectPeripheral_loop].
  destruct (addr <=? endAddr); [|now intros [= <-]].
  unfold bind_address, bind, this, update.
  intros Hrun Hlen. apply IH in Hrun; [exact Hrun|].
  now destruct Hlen.
Qed.

(** X24. The array lengths are an invariant of the other operations too:
    [Reset], [SetInBootMode], [LoadCartridge], [LoadBIOS] (for data of any
    length) and [ConnectPeripheral] keep them whenever they return. *)
Theorem operations_preserve_array_lengths w :
  array_lengths (mmu w) ->
  (forall w', Reset w = Returns tt w' -> array_lengths (mmu w')) /\
  (forall mode w', SetInBootMode mode w = Returns tt w' ->
                   array_lengths (mmu w')) /\
  (forall cart w', LoadCartridge cart w = Returns tt w' ->
                   array_lengths (mmu w')) /\
  (forall data r w', LoadBIOS data w = Returns r w' ->
                     array_lengths (mmu w')) /\
  (forall fuel p startAddr endAddr w',
     ConnectPeripheral fuel p startAddr endAddr w = Some (Returns tt w') ->
     array_lengths (mmu w')).
Proof.
  intros Hlen. split; [|split; [|split; [|split]]].
  - unfold Reset, bind, log, update. intros w' [= <-].
    now apply (array_lengths_frame (mmu w)).
  - unfold SetInBootMode, update. intros mode w' [= <-].
    now apply (array_lengths_frame (mmu w)).
  - unfold LoadCartridge, bind, ask, log, update. intros cart w' [= <-].
    now apply (array_lengths_frame (mmu w)).
  - intros data r w'. unfold LoadBIOS, bind, log, this. cbn [mmu].
    destruct (Z.ltb_spec (len (bios (mmu w))) (len data)).
    + intros [= _ <-]. exact Hlen.
    + change 0 with (Z.of_nat 0).
      rewrite LoadBIOS_loop_copies by (cbn [mmu]; unfold len in *; lia).
      intros [= _ <-].
      apply (array_lengths_frame (mmu w)); try done.
      cbn [mmu bios set_bios]. unfold len in *.
      rewrite length_app, length_drop. lia.
  - intros fuel p startAddr endAddr w'. unfold ConnectPeripheral.
    destruct (startAddr =? endAddr).
    + unfold bind_address, bind, ask, log, this, update. intros [= <-].
      now apply (array_lengths_frame (mmu w)).
    + unfold bind, ask, log. intros Hrun.
      now apply ConnectPeripheral_loop_array_lengths in Hrun.
Qed.

End Wiring_properties.

(** ** Interrupt requests and the wiring dump *)

Section Diagnostics_properties.
Context {P C E : Type} `{!Collaborators P C E}.
Implicit Type mc : Machine P C E.

Lemma machine_eta mc : mkMachine (world mc) (warnings mc) (stdout mc) = mc.
Proof. now destruct mc. Qed.

(** X25. [RequestInterrupt], with [0xFF0F] for
    [constants.INTERRUPT_FLAG_ADDR].  A kind other than the vertical blank
    only adds a warning.  The vertical blank stores [0x01] in the
    interrupt-flag register, replacing (not or-ing into) whatever was
    pending, so that [0xFF0F] then reads [0x01]; when a peripheral is bound
    at [0xFF0F], the request is that peripheral's [Write] instead and the
    register stays as it was. *)
Theorem RequestInterrupt_effect mc (V_BLANK_IRQ interrupt : Z) :
  (interrupt <> V_BLANK_IRQ ->
   RequestInterrupt V_BLANK_IRQ 0xFF0F interrupt mc =
     Returns tt
       (mkMachine (world mc)
          (warnings mc ++ [WarnInterruptUnimplemented interrupt]) (stdout mc))) /\
  (peripheralIOMap (mmu (world mc)) !! 0xFF0F = None ->
   RequestInterrupt V_BLANK_IRQ 0xFF0F V_BLANK_IRQ mc =
     Returns tt
       (mkMachine
          (mkWorld (set_interruptsFlag 0x01 (mmu (world mc)))
             (env (world mc)) (console (world mc)))
          (warnings mc) (stdout mc)) /\
   returned ((RequestInterrupt V_BLANK_IRQ 0xFF0F V_BLANK_IRQ ;;;
              lift (ReadByte 0xFF0F)) mc) = Some 0x01) /\
  (forall p,
   peripheralIOMap (mmu (world mc)) !! 0xFF0F = Some p ->
   RequestInterrupt V_BLANK_IRQ 0xFF0F V_BLANK_IRQ mc =
     Returns tt
       (mkMachine
          (mkWorld (mmu (world mc))
             (Peripheral_Write p 0xFF0F 0x01 (env (world mc)))
             (console (world mc)))
          (warnings mc) (stdout mc))).
Proof.
  unfold RequestInterrupt. split; [|split].
  - intros Hne. now destruct (Z.eqb_spec interrupt V_BLANK_IRQ).
  - intros Hfree. rewrite Z.eqb_refl.
    assert (Hwrite :
      lift (WriteByte 0xFF0F 0x01) mc =
        Returns tt
          (mkMachine
             (mkWorld (set_interruptsFlag 0x01 (mmu (world mc)))
                (env (world mc)) (console (world mc)))
             (warnings mc) (stdout mc))).
    { unfold lift, WriteByte, bind, this. now rewrite Hfree. }
    split; [exact Hwrite|].
    unfold bind at 1. rewrite Hwrite.
    unfold lift, ReadByte, bind, this.
    cbn [world mmu peripheralIOMap set_interruptsFlag]. now rewrite Hfree.
  - intros p Hp. rewrite Z.eqb_refl.
    unfold lift, WriteByte, bind, this. now rewrite Hp.
Qed.

(** The entry the dump prints for an address. *)
Lemma name_at_bound mc (addr : Z) (p : P) :
  peripheralIOMap (mmu (world mc)) !! addr = Some p ->
  name_at addr mc = Returns (Peripheral_Name p (env (world mc))) mc.
Proof.
  intros Hp. unfold name_at, bind, lift, this. cbn [world].
  rewrite Hp. unfold ask. cbn [world warnings stdout].
  now rewrite machine_eta.
Qed.

(** Line breaks among the entries numbered [i .. i + n - 1]: one after
    each entry whose number is a multiple of 8. *)
Lemma breaks_step (i n : Z) :
  0 <= i -> 0 <= n ->
  (i + (n + 1) + 7) / 8 - (i + 7) / 8 =
  (if i mod 8 =? 0 then 1 else 0) + ((i + 1 + n + 7) / 8 - (i + 1 + 7) / 8).
Proof.
  intros Hi Hn.
  replace (i + (n + 1) + 7) with (i + 1 + n + 7) by lia.
  generalize ((i + 1 + n + 7) / 8). intros q.
  assert (Hq : (i + 1 + 7) / 8 - (i + 7) / 8 = if i mod 8 =? 0 then 1 else 0).
  { destruct (Z.eqb_spec (i mod 8) 0) as [Hz|Hnz]; cbv iota;
      revert Hz || revert Hnz; Z.div_mod_to_equations; lia. }
  lia.
Qed.

Lemma PrintPeripheralMap_loop_prints (addrs : list Z) :
  forall (i : Z) mc,
    0 <= i ->
    (forall a, a ∈ addrs -> is_Some (peripheralIOMap (mmu (world mc)) !! a)) ->
    exists out,
      PrintPeripheralMap_loop i addrs mc =
        Returns tt (mkMachine (world mc) (warnings mc) (stdout mc ++ out)) /\
      entries out =
        omap (fun a => (fun p => (a, Peripheral_Name p (env (world mc))))
                         <$> peripheralIOMap (mmu (world mc)) !! a) addrs /\
      len out = len addrs + ((i + len addrs + 7) / 8 - (i + 7) / 8) /\
      (i mod 8 = 0 -> addrs <> [] -> out !! 1%nat = Some PrintNewline).
Proof.
  induction addrs as [|a rest IH]; intros i mc Hi Hbound.
  - exists []. cbn [PrintPeripheralMap_loop]. unfold ret.
    rewrite app_nil_r, machine_eta. repeat split; [|done].
    unfold len. cbn [length]. change (Z.of_nat 0) with 0.
    rewrite Z.add_0_r. lia.
  - destruct (Hbound a) as [p Hp]; [apply list_elem_of_here|].
    set (entry := PrintEntry a (Peripheral_Name p (env (world mc)))).
    set (brk := if i mod 8 =? 0 then [PrintNewline] else []).
    set (mc' := mkMachine (world mc) (warnings mc)
                  ((stdout mc ++ [entry]) ++ brk)).
    assert (Hbrk :
      (if i mod 8 =? 0 then print PrintNewline else ret tt)
        (mkMachine (world mc) (warnings mc) (stdout mc ++ [entry]))
      = Returns tt mc').
    { subst mc' brk. destruct (i mod 8 =? 0); [reflexivity|].
      unfold ret. now rewrite app_nil_r. }
    destruct (IH (i + 1) mc') as (out & Hrun & Hentries & Hlen & _);
      [lia | intros a' Ha'; apply Hbound; now apply list_elem_of_further |].
    exists (entry :: brk ++ out). split; [|split; [|split]].
    + cbn [PrintPeripheralMap_loop]. unfold bind at 1.
      rewrite (name_at_bound mc a p Hp).
      unfold bind at 1, print at 1. unfold bind at 1.
      fold entry. rewrite Hbrk, Hrun. subst mc'. cbn [world warnings stdout].
      do 2 f_equal. rewrite <- !app_assoc. reflexivity.
    + change (entry :: brk ++ out) with ([entry] ++ brk ++ out).
      unfold entries in *. rewrite !omap_app, Hentries.
      cbn [omap list_omap]. rewrite Hp. cbn [fmap option_fmap option_map].
      subst mc' brk. cbn [world]. now destruct (i mod 8 =? 0).
    + pose proof (breaks_step i (len rest) Hi ltac:(unfold len; lia)) as Hstep.
      unfold len in *. cbn [length]. rewrite length_app.
      replace (i + Z.of_nat (S (length rest)) + 7)
        with (i + (Z.of_nat (length rest) + 1) + 7) by lia.
      rewrite Hstep. subst brk.
      destruct (i mod 8 =? 0); cbn [length]; lia.
    + intros Hz _. subst brk. rewrite Hz. reflexivity.
Qed.

Lemma sorted_distinct (l : list Z) :
  StronglySorted Z.le l -> NoDup l -> StronglySorted Z.lt l.
Proof.
  induction 1 as [|a l Hsorted IH Hall]; intros Hnd; constructor.
  - apply IH. now apply NoDup_cons_1_2 in Hnd.
  - apply NoDup_cons_1_1 in Hnd.
    rewrite Forall_forall in Hall |- *. intros y Hy.
    specialize (Hall y Hy). assert (a <> y) by (intros ->; done). lia.
Qed.

(** The sorted addresses of a peripheral map: strictly ascending, the bound
    addresses and no other, as many as the map has bindings. *)
Lemma sort_Words_keys (io : gmap Z P) :
  StronglySorted Z.lt (sort_Words (map_to_list io).*1) /\
  (forall a, a ∈ sort_Words (map_to_list io).*1 <-> is_Some (io !! a)) /\
  length (sort_Words (map_to_list io).*1) = size io.
Proof.
  unfold sort_Words.
  pose proof (merge_sort_Permutation Z.le (map_to_list io).*1) as Hperm.
  split; [|split].
  - apply sorted_distinct.
    + apply StronglySorted_merge_sort; apply _.
    + rewrite Hperm. apply NoDup_fst_map_to_list.
  - intros a. rewrite Hperm, list_elem_of_fmap. split.
    + intros [[a' p] [-> Hin]]. apply elem_of_map_to_list in Hin. now exists p.
    + intros [p Hp]. exists (a, p). split; [done|].
      now apply elem_of_map_to_list.
  - rewrite Hperm, length_fmap. apply length_map_to_list.
Qed.

(** The order in which the map's keys were collected does not show in the
    sorted list. *)
Lemma sort_Words_any_order (l1 l2 : list Z) :
  l1 ≡ₚ l2 -> sort_Words l1 = sort_Words l2.
Proof.
  intros Hperm. unfold sort_Words.
  apply (StronglySorted_unique Z.le).
  - apply StronglySorted_merge_sort; apply _.
  - apply StronglySorted_merge_sort; apply _.
  - now rewrite !merge_sort_Permutation.
Qed.

Lemma omap_bound_fst (io : gmap Z P) (e : E) (l : list Z) :
  (forall a, a ∈ l -> is_Some (io !! a)) ->
  (omap (fun a => (fun p => (a, Peripheral_Name p e)) <$> io !! a) l).*1 = l.
Proof.
  induction l as [|a l IH]; intros Hbound; [reflexivity|].
  destruct (Hbound a) as [p Hp]; [apply list_elem_of_here|].
  cbn [omap list_omap]. rewrite Hp. cbn. f_equal.
  apply IH. intros a' Ha'. apply Hbound. now apply list_elem_of_further.
Qed.

(** X26. [PrintPeripheralMap] returns and changes nothing but standard
    output, and what it prints ends with a line break.  What it prints lists every bound address exactly once, in
    strictly ascending order, each with the name of the peripheral bound
    there; a line break follows every entry whose index is a multiple of 8
    (so the first line holds a single entry) and one more ends the dump,
    and an empty map prints that last line break alone. *)
Theorem PrintPeripheralMap_lists_bindings mc :
  exists out,
    PrintPeripheralMap mc =
      Returns tt (mkMachine (world mc) (warnings mc) (stdout mc ++ out)) /\
    StronglySorted Z.lt (entries out).*1 /\
    (forall a name,
       (a, name) ∈ entries out <->
       exists p, peripheralIOMap (mmu (world mc)) !! a = Some p /\
                 name = Peripheral_Name p (env (world mc))) /\
    (let n := Z.of_nat (size (peripheralIOMap (mmu (world mc)))) in
     len out = n + (n + 7) / 8 + 1) /\
    (peripheralIOMap (mmu (world mc)) <> ∅ -> out !! 1%nat = Some PrintNewline) /\
    last out = Some PrintNewline.
Proof.
  set (io := peripheralIOMap (mmu (world mc))).
  destruct (sort_Words_keys io) as (Hsorted & Hkeys & Hsize).
  destruct (PrintPeripheralMap_loop_prints (sort_Words (map_to_list io).*1)
              0 mc ltac:(lia))
    as (out & Hrun & Hentries & Hlen & Hbreak).
  { intros a Ha. now apply Hkeys. }
  fold io in Hentries.
  assert (Hout : entries (out ++ [PrintNewline]) = entries out).
  { unfold entries. rewrite omap_app. cbn. apply app_nil_r. }
  exists (out ++ [PrintNewline]). split; [|split; [|split; [|split; [|split]]]].
  - unfold PrintPeripheralMap, bind at 1, lift, this. cbn [world warnings stdout].
    rewrite machine_eta. fold io. unfold bind, print. rewrite Hrun.
    cbn [world warnings stdout]. now rewrite app_assoc.
  - rewrite Hout, Hentries, omap_bound_fst; [exact Hsorted|].
    intros a Ha. now apply Hkeys.
  - intros a name. rewrite Hout, Hentries, list_elem_of_omap. split.
    + intros (a' & _ & Hf). destruct (io !! a') as [p|] eqn:Hp; [|done].
      injection Hf as <- <-. now exists p.
    + intros (p & Hp & ->). exists a. split; [apply Hkeys; now exists p|].
      now rewrite Hp.
  - cbn zeta. unfold len in *. rewrite length_app, Hsize in *.
    cbn [length]. change ((0 + 7) / 8) with 0 in Hlen.
    rewrite Z.add_0_l in Hlen. lia.
  - intros Hne. apply lookup_app_l_Some. apply Hbreak; [reflexivity|].
    intros Hnil. apply Hne. apply map_size_empty_iff.
    rewrite <- Hsize, Hnil. reflexivity.
  - apply last_snoc.
Qed.

End Diagnostics_properties.

(** * The recording machine

    The failing inputs of the specification's claims, and instances of the
    theorems above, on the machine at power-on. *)

Lemma power_on_array_lengths : array_lengths (mmu power_on).
Proof. split; vm_compute; reflexivity. Qed.

Lemma power_on_unwired (addr : Z) : peripheralIOMap (mmu power_on) !! addr = None.
Proof. apply lookup_empty. Qed.

(** C1 at a failing input: after [0x01] went to [0xC000] and [0x02] to
    [0xC200], the echo address [0xE000] of the former reads [0x02]. *)
Theorem shadow_read_follows_other_address :
  returned ((WriteByte 0xC000 0x01 ;;;
             WriteByte 0xC200 0x02 ;;;
             ReadByte 0xE000) power_on) = Some 0x02.
Proof. vm_compute. reflexivity. Qed.

(** C2 at a failing input: with cartridge 0 loaded and nothing wired, the
    write of [0xAB] to [0x8000] is handed to the cartridge's bank
    controller. *)
Theorem graphics_window_write_reaches_cartridge :
  returned (calls power_on) = Some [] /\
  returned ((WriteByte 0x8000 0xAB ;;; calls) power_on)
    = Some [CallMBCWrite 0%nat 0x8000 0xAB].
Proof. split; vm_compute; reflexivity. Qed.

(** C3 at a failing input: the write to [0xFF4C] indexes the reserved
    scratch at [0xFF4C - 0xFF4D], which wraps to [0xFFFF], and panics. *)
Theorem WriteByte_FF4C_panics (value : Z) :
  WriteByte 0xFF4C value power_on = Panics (IndexOutOfRange 0xFFFF 52).
Proof. vm_compute. reflexivity. Qed.

(** C4 at a failing input: [0x07] written to [0xFF4D] lands in cell 0 of
    the reserved scratch, the read of [0xFF4D] looks at cell 1 and returns
    [0x00]. *)
Theorem scratch_read_misses_write :
  returned ((WriteByte 0xFF4D 0x07 ;;; ReadByte 0xFF4D) power_on) = Some 0x00.
Proof. vm_compute. reflexivity. Qed.

(** C10 at a failing input: [ConnectPeripheral(p, 0xFFFE, 0xFFFF)] does not
    leave its loop, whatever the number of iterations allowed. *)
Theorem ConnectPeripheral_FFFE_FFFF_diverges (fuel : nat) :
  ConnectPeripheral fuel 0%nat 0xFFFE 0xFFFF power_on = None.
Proof.
  unfold ConnectPeripheral.
  change (0xFFFE =? 0xFFFF) with false. cbv iota.
  unfold bind, ask, log.
  apply ConnectPeripheral_loop_no_exit. unfold is_Word. lia.
Qed.

(** ** Instances *)

Lemma WriteByte_ReadByte_internalRAM_witness :
  exists w',
    WriteByte 0xDFFF 0x5A power_on = Returns tt w' /\
    ReadByte 0xDFFF w' = Returns 0x5A w'.
Proof.
  apply (WriteByte_ReadByte_internalRAM power_on 0xDFFF 0x5A).
  - exact power_on_array_lengths.
  - lia.
  - apply power_on_unwired.
Defined.

Lemma WriteByte_ReadByte_shadow_witness :
  exists w',
    WriteByte 0xC200 0x5A power_on = Returns tt w' /\
    ReadByte (0xC200 + 0x2000) w' = Returns 0x5A w'.
Proof.
  apply (WriteByte_ReadByte_shadow power_on 0xC200 0x5A).
  - exact power_on_array_lengths.
  - lia.
  - apply power_on_unwired.
  - apply power_on_unwired.
Defined.

Lemma ReadWord_WriteWord_little_endian_witness :
  (exists v,
     ReadWord 0xC000 stamped = Returns v stamped /\
     v = 0xEF + 256 * 0xBE /\
     Z.land v 0xFF = 0xEF /\
     Z.shiftr v 8 = 0xBE) /\
  WriteWord 0xDFFE 0xBEEF power_on =
    (WriteByte 0xDFFE (Z.land 0xBEEF 0xFF) ;;;
     WriteByte (wrap16 (0xDFFE + 1)) (Z.shiftr 0xBEEF 8)) power_on /\
  (exists w',
     WriteWord 0xDFFE 0xBEEF power_on = Returns tt w' /\
     ReadByte 0xDFFE w' = Returns (Z.land 0xBEEF 0xFF) w' /\
     ReadByte (0xDFFE + 1) w' = Returns (Z.shiftr 0xBEEF 8) w' /\
     ReadWord 0xDFFE w' = Returns 0xBEEF w').
Proof.
  assert (Hv : is_Word 0xBEEF) by (unfold is_Word; lia).
  split; [|split].
  - apply (proj1 (ReadWord_WriteWord_little_endian stamped 0xC000 0xBEEF Hv)
             0xEF 0xBE stamped stamped).
    + vm_compute. reflexivity.
    + vm_compute. reflexivity.
    + unfold is_byte. lia.
    + unfold is_byte. lia.
  - apply (ReadWord_WriteWord_little_endian power_on 0xDFFE 0xBEEF Hv).
  - apply (ReadWord_WriteWord_little_endian power_on 0xDFFE 0xBEEF Hv).
    + exact power_on_array_lengths.
    + lia.
    + apply power_on_unwired.
    + apply power_on_unwired.
Defined.


Lemma WriteByte_preserves_array_lengths_witness :
  array_lengths (mmu (after (WriteByte 0xC000 0x01) power_on)).
Proof.
  apply (WriteByte_preserves_array_lengths power_on _ 0xC000 0x01).
  - exact power_on_array_lengths.
  - vm_compute. reflexivity.
Defined.

Lemma WriteByte_returns_except_FF4C_witness :
  exists w', WriteByte 0xFF4D 0x07 power_on = Returns tt w'.
Proof.
  apply (WriteByte_returns_except_FF4C power_on 0xFF4D 0x07).
  - exact power_on_array_lengths.
  - unfold is_Word. lia.
  - lia.
  - intros _. vm_compute. discriminate.
Defined.

Lemma WriteByte_graphics_window_witness :
  WriteByte 0x8000 0xAB power_on =
    Returns tt
      (mkWorld (mmu power_on) (MBC_Write 0%nat 0x8000 0xAB (env power_on))
         (console power_on)).
Proof.
  apply (WriteByte_graphics_window power_on 0x8000 0xAB 0%nat).
  - lia.
  - apply power_on_unwired.
  - vm_compute. reflexivity.
Defined.

Lemma WriteByte_shadow_window_witness :
  WriteByte 0xE000 0x5A power_on = Returns tt power_on.
Proof.
  apply (WriteByte_shadow_window power_on 0xE000 0x5A).
  - lia.
  - apply power_on_unwired.
Defined.

Lemma WriteByte_shadow_aliases_witness :
  exists w',
    WriteByte (0xC000 + 0x200) 0x02 power_on = Returns tt w' /\
    ReadByte (0xC000 + 0x2000) w' = Returns 0x02 w'.
Proof.
  apply (WriteByte_shadow_aliases power_on 0xC000 0x02).
  - exact power_on_array_lengths.
  - lia.
  - reflexivity.
  - apply power_on_unwired.
  - apply power_on_unwired.
Defined.

Lemma WriteByte_ReadByte_emptySpace_shifted_witness :
  exists w',
    WriteByte 0xFF4D 0x07 power_on = Returns tt w' /\
    ReadByte (0xFF4D - 1) w' = Returns 0x07 w'.
Proof.
  apply (WriteByte_ReadByte_emptySpace_shifted power_on 0xFF4D 0x07).
  - exact power_on_array_lengths.
  - lia.
  - lia.
  - lia.
  - apply power_on_unwired.
  - apply power_on_unwired.
Defined.

Lemma WriteByte_ReadByte_high_page_witness :
  exists w',
    WriteByte 0xFFFF 0x1F power_on = Returns tt w' /\
    ReadByte 0xFFFF w' = Returns 0x1F w'.
Proof.
  apply (WriteByte_ReadByte_high_page power_on 0xFFFF 0x1F).
  - exact power_on_array_lengths.
  - right. lia.
  - apply power_on_unwired.
Defined.

Lemma ConnectPeripheral_binds_range_witness :
  exists fuel w',
    ConnectPeripheral fuel 7%nat 0xFF40 0xFF45 power_on = Some (Returns tt w') /\
    (forall a, peripheralIOMap (mmu w') !! a =
       if (0xFF40 <=? a) && (a <=? 0xFF45) then Some 7%nat
       else peripheralIOMap (mmu power_on) !! a) /\
    mmu w' = set_peripheralIOMap (peripheralIOMap (mmu w')) (mmu power_on) /\
    env w' = env power_on.
Proof.
  apply (ConnectPeripheral_binds_range power_on 7%nat 0xFF40 0xFF45).
  - unfold is_Word. lia.
  - lia.
  - left. lia.
Defined.

Lemma ConnectPeripheral_diverges_at_FFFF_witness :
  ConnectPeripheral 100 7%nat 0x0000 0xFFFF power_on = None.
Proof.
  apply (ConnectPeripheral_diverges_at_FFFF power_on 7%nat 0x0000 100).
  - unfold is_Word. lia.
  - lia.
Defined.

Lemma peripheral_takes_precedence_witness :
  WriteByte 0xFF42 0x10 wired =
    Returns tt
      (mkWorld (mmu wired) (Peripheral_Write 7%nat 0xFF42 0x10 (env wired))
         (console wired)) /\
  ReadByte 0xFF42 wired =
    Returns (Peripheral_Read 7%nat 0xFF42 (env wired)).1
      (mkWorld (mmu wired) (Peripheral_Read 7%nat 0xFF42 (env wired)).2
         (console wired)).
Proof.
  apply (peripheral_takes_precedence wired 7%nat 0xFF42 0x10).
  vm_compute. reflexivity.
Defined.

Lemma ReadByte_boot_window_witness :
  (inBootMode (mmu power_on) = true ->
   exists b, bios (mmu power_on) !! Z.to_nat 0x0050 = Some b /\
             ReadByte 0x0050 power_on = Returns b power_on) /\
  returned ((SetInBootMode false ;;; ReadByte 0x0050) power_on)
    = Some (MBC_Read 0%nat 0x0050 (env power_on)).1.
Proof.
  apply (ReadByte_boot_window power_on 0x0050 0%nat).
  - exact power_on_array_lengths.
  - lia.
  - apply power_on_unwired.
  - vm_compute. reflexivity.
Defined.

(** ** Further instances *)

Lemma ReadByte_returns_and_keeps_router_witness :
  exists b w', ReadByte 0xFF4C power_on = Returns b w' /\ mmu w' = mmu power_on.
Proof.
  apply (ReadByte_returns_and_keeps_router power_on 0xFF4C).
  - exact power_on_array_lengths.
  - unfold is_Word. lia.
  - intros _. vm_compute. discriminate.
Defined.

Lemma ReadByte_unmapped_witness :
  ReadByte 0x8000 power_on =
    Returns 0x00
      (mkWorld (mmu power_on) (env power_on)
         (console power_on ++ [LogReadUnmapped 0x8000])).
Proof.
  apply (ReadByte_unmapped power_on 0x8000).
  - left. lia.
  - apply power_on_unwired.
Defined.

Lemma WriteByte_unmapped_witness :
  WriteByte 0xFE00 0x5A power_on = Returns tt power_on.
Proof.
  apply (WriteByte_unmapped power_on 0xFE00 0x5A).
  - left. lia.
  - apply power_on_unwired.
Defined.

Lemma access_without_cartridge_panics_witness :
  (0 <= 0x2000 <= 0xBFFF ->
   WriteByte 0x2000 0x01 unloaded = Panics NilPointerDereference) /\
  (0x0100 <= 0x2000 <= 0x7FFF \/ 0xA000 <= 0x2000 <= 0xBFFF \/
     (0 <= 0x2000 < 0x0100 /\ inBootMode (mmu unloaded) = false) ->
   ReadByte 0x2000 unloaded = Panics NilPointerDereference).
Proof.
  apply (access_without_cartridge_panics unloaded 0x2000 0x01).
  - vm_compute. reflexivity.
  - apply lookup_empty.
Defined.

Lemma WriteByte_keeps_wiring_witness :
  bios (mmu (after (WriteByte 0xC000 0x01) power_on)) = bios (mmu power_on) /\
  cartridge (mmu (after (WriteByte 0xC000 0x01) power_on)) = cartridge (mmu power_on) /\
  inBootMode (mmu (after (WriteByte 0xC000 0x01) power_on)) = inBootMode (mmu power_on) /\
  peripheralIOMap (mmu (after (WriteByte 0xC000 0x01) power_on))
    = peripheralIOMap (mmu power_on) /\
  console (after (WriteByte 0xC000 0x01) power_on) = console power_on.
Proof.
  apply (WriteByte_keeps_wiring power_on _ 0xC000 0x01).
  vm_compute. reflexivity.
Defined.

Lemma WriteByte_internalRAM_elsewhere_witness :
  exists b w',
    ReadByte 0xC200 power_on = Returns b power_on /\
    WriteByte 0xC000 0x01 power_on = Returns tt w' /\
    ReadByte 0xC200 w' = Returns b w'.
Proof.
  apply (WriteByte_internalRAM_elsewhere power_on 0xC000 0xC200 0x01).
  - exact power_on_array_lengths.
  - lia.
  - lia.
  - lia.
  - apply power_on_unwired.
  - apply power_on_unwired.
Defined.

Lemma LoadBIOS_then_ReadByte_witness :
  exists w',
    LoadBIOS [0x31; 0xFE; 0xFF] power_on = Returns (true, None) w' /\
    (forall b, [0x31; 0xFE; 0xFF] !! Z.to_nat 1 = Some b ->
               ReadByte 1 w' = Returns b w') /\
    (forall b, len [0x31; 0xFE; 0xFF] <= 1 ->
               bios (mmu power_on) !! Z.to_nat 1 = Some b ->
               ReadByte 1 w' = Returns b w').
Proof.
  apply (LoadBIOS_then_ReadByte power_on [0x31; 0xFE; 0xFF] 1).
  - exact power_on_array_lengths.
  - vm_compute. discriminate.
  - vm_compute. reflexivity.
  - lia.
  - apply power_on_unwired.
Defined.

Lemma LoadCartridge_then_access_witness :
  (0 <= 0x4000 <= 0xBFFF ->
   (LoadCartridge 1%nat ;;; WriteByte 0x4000 0x01) power_on =
     Returns tt
       (mkWorld (set_cartridge (Some 1%nat) (mmu power_on))
          (MBC_Write 1%nat 0x4000 0x01 (env power_on))
          (console power_on ++
             [LogLoadedCartridge (Cartridge_String 1%nat (env power_on))]))) /\
  (0x0100 <= 0x4000 <= 0x7FFF \/ 0xA000 <= 0x4000 <= 0xBFFF ->
   (LoadCartridge 1%nat ;;; ReadByte 0x4000) power_on =
     Returns (MBC_Read 1%nat 0x4000 (env power_on)).1
       (mkWorld (set_cartridge (Some 1%nat) (mmu power_on))
          (MBC_Read 1%nat 0x4000 (env power_on)).2
          (console power_on ++
             [LogLoadedCartridge (Cartridge_String 1%nat (env power_on))]))).
Proof.
  apply (LoadCartridge_then_access power_on 1%nat 0x4000 0x01).
  apply power_on_unwired.
Defined.

Lemma Reset_then_ReadByte_witness :
  exists w',
    Reset running = Returns tt w' /\
    w' = mkWorld (set_interruptsFlag 0x00 (set_inBootMode true (mmu running)))
           (env running) (console running ++ [LogResetting]) /\
    ReadByte 0xFF0F w' = Returns 0x00 w' /\
    ReadByte 0x0001 w' = Returns 0xFE w'.
Proof.
  apply (Reset_then_ReadByte running 0x0001 0xFE).
  - lia.
  - apply lookup_empty.
  - apply lookup_empty.
  - vm_compute. reflexivity.
Defined.

(** Before the [Reset], the same two reads on that machine: the pending
    flags, and a call of the cartridge. *)
Example running_before_Reset :
  returned (ReadByte 0xFF0F running) = Some 0x1F /\
  returned ((ReadByte 0x0001 ;;; calls) running) = Some [CallMBCRead 0%nat 0x0001].
Proof. split; vm_compute; reflexivity. Qed.

Lemma ConnectPeripheral_empty_range_witness :
  ConnectPeripheral 1 7%nat 0xFF45 0xFF40 power_on =
    Some (Returns tt
            (mkWorld (mmu power_on) (env power_on)
               (console power_on ++
                  [LogConnectRange (Peripheral_Name 7%nat (env power_on))
                     0xFF45 0xFF40]))).
Proof.
  apply (ConnectPeripheral_empty_range power_on 7%nat 0xFF45 0xFF40 0).
  lia.
Defined.

Lemma ConnectPeripheral_then_access_witness :
  exists fuel w',
    ConnectPeripheral fuel 7%nat 0xFF40 0xFF45 power_on = Some (Returns tt w') /\
    env w' = env power_on /\
    WriteByte 0xFF42 0x10 w' =
      Returns tt
        (mkWorld (mmu w') (Peripheral_Write 7%nat 0xFF42 0x10 (env w')) (console w')) /\
    ReadByte 0xFF42 w' =
      Returns (Peripheral_Read 7%nat 0xFF42 (env w')).1
        (mkWorld (mmu w') (Peripheral_Read 7%nat 0xFF42 (env w')).2 (console w')).
Proof.
  apply (ConnectPeripheral_then_access power_on 7%nat 0xFF40 0xFF45 0xFF42 0x10).
  - unfold is_Word. lia.
  - left. lia.
  - lia.
Defined.

Lemma operations_preserve_array_lengths_witness :
  (forall w', Reset power_on = Returns tt w' -> array_lengths (mmu w')) /\
  (forall mode w', SetInBootMode mode power_on = Returns tt w' ->
                   array_lengths (mmu w')) /\
  (forall cart w', LoadCartridge cart power_on = Returns tt w' ->
                   array_lengths (mmu w')) /\
  (forall data r w', LoadBIOS data power_on = Returns r w' ->
                     array_lengths (mmu w')) /\
  (forall fuel p startAddr endAddr w',
     ConnectPeripheral fuel p startAddr endAddr power_on = Some (Returns tt w') ->
     array_lengths (mmu w')).
Proof.
  apply (operations_preserve_array_lengths power_on).
  exact power_on_array_lengths.
Defined.

Lemma RequestInterrupt_effect_witness :
  RequestInterrupt 0x01 0xFF0F 0x02 bench =
    Returns tt
      (mkMachine (world bench)
         (warnings bench ++ [WarnInterruptUnimplemented 0x02]) (stdout bench)) /\
  returned ((RequestInterrupt 0x01 0xFF0F 0x01 ;;;
             lift (ReadByte 0xFF0F)) bench) = Some 0x01.
Proof.
  split.
  - apply (RequestInterrupt_effect bench 0x01 0x02). lia.
  - apply (RequestInterrupt_effect bench 0x01 0x01). vm_compute. reflexivity.
Defined.

Lemma PrintPeripheralMap_lists_bindings_witness :
  exists out,
    PrintPeripheralMap bench =
      Returns tt (mkMachine (world bench) (warnings bench) (stdout bench ++ out)) /\
    StronglySorted Z.lt (entries out).*1 /\
    (forall a name,
       (a, name) ∈ entries out <->
       exists p, peripheralIOMap (mmu (world bench)) !! a = Some p /\
                 name = Peripheral_Name p (env (world bench))) /\
    (let n := Z.of_nat (size (peripheralIOMap (mmu (world bench)))) in
     len out = n + (n + 7) / 8 + 1) /\
    (peripheralIOMap (mmu (world bench)) <> ∅ -> out !! 1%nat = Some PrintNewline) /\
    last out = Some PrintNewline.
Proof.
  apply (PrintPeripheralMap_lists_bindings bench).
Defined.

(** The dump of the wired machine, as printed. *)
Example PrintPeripheralMap_of_wired :
  returned ((PrintPeripheralMap ;;; (fun mc => Returns (stdout mc) mc)) bench) =
    Some [PrintEntry 0xFF40 "recorder"; PrintNewline;
          PrintEntry 0xFF41 "recorder"; PrintEntry 0xFF42 "recorder";
          PrintEntry 0xFF43 "recorder"; PrintEntry 0xFF44 "recorder";
          PrintEntry 0xFF45 "recorder"; PrintNewline].
Proof. vm_compute. reflexivity. Qed.
